(** * Rolling-returns report: a shallow embedding of [rolling_returns.py]

    Definitions, in the order of the source file:

    - [Calendar]  the fragment of Python's [datetime.date] that the script
                  uses: [replace], subtraction of a [timedelta], comparison
                  and difference of two dates, over [_ymd2ord]/[_ord2ymd];
    - [Frame]     the fragment of pandas used on the NAV table: columns
                  parsed with [errors="coerce"], [dropna], [iloc[-1]];
    - [Nav]       [get_nav_data], [last_nav_on_or_before] and
                  [monthly_rolling_return];
    - [Runner]    [build_results], the loop over the scheme catalogue;
    - [Report]    the report laid out from one value per task;
    - [Spec]      the window and the calculator as the specification words
                  them, and the run that computes the window once;
    - [Excel]     [export_to_excel], as the calls it makes on each
                  worksheet, and [run_all];
    - [Demo], [Samples]  a concrete table library, Python's formatting of
                  numbers and dates, and sample data.

    Then the properties: [CalendarFacts], [FrameFacts], [NavFacts],
    [DemoFacts], [SeriesFacts], [SeriesExamples], [RunnerFacts],
    [WindowFacts], and further ones of the lookup and the calculator
    ([NavExtras]), of the run ([RunnerExtras]) and of the workbook
    ([ExcelFacts]).

    NAV values are IEEE-754 binary64 numbers, as in Python; they are
    modelled by Rocq's primitive floats, so every definition below runs.
    The parsers of pandas and its sort are parameters: the date parser maps
    a column to one timestamp or [NaT] per position (pandas settles the
    format on the whole column), the number parser maps one element to a
    number or [nan]; the sort returns its input reordered by date (pandas'
    default sort is not stable, so nothing else is assumed of it).  The
    HTTP exchange and the clock are a [World], consulted by the number of
    the task being processed. *)

From Stdlib Require Import ZArith List Lia Ascii String Bool.
From Stdlib Require Import Sorted Permutation.
From Stdlib Require Import Floats.PrimFloat Numbers.Cyclic.Int63.Uint63.
From Stdlib Require Import Floats.FloatOps Floats.SpecFloat DecimalString.
Import ListNotations.
Local Open Scope Z_scope.
Set Warnings "-inexact-float".

(** ** Exceptions and the error monad

    Python exceptions that can reach the [try]/[except Exception] of
    [build_results]. *)

(** The two messages of [get_nav_data]: [HTTP {status} for code {code}] and
    [No data returned for scheme {code}]. *)
Inductive runtime_msg : Type :=
| HttpStatus (status : Z) (scheme_code : string)
| NoDataReturned (scheme_code : string).

Inductive exn : Type :=
| ConnectionError                (* raised by [requests.get] *)
| JSONDecodeError                (* raised by [resp.json()] *)
| RuntimeError (msg : runtime_msg) (* raised by [get_nav_data] itself *)
| ValueError                     (* [date.replace] out of range *)
| OverflowError.                 (* date arithmetic out of range *)

Definition result (A : Type) : Type := (exn + A)%type.

Definition ret {A} (a : A) : result A := inr a.
Definition raise {A} (e : exn) : result A := inl e.
Definition bind {A B} (m : result A) (k : A -> result B) : result B :=
  match m with
  | inl e => inl e
  | inr a => k a
  end.

Declare Scope result_scope.
Delimit Scope result_scope with result.
Notation "x <- m ;; k" := (bind m (fun x => k))
  (at level 61, m at next level, right associativity) : result_scope.

(** ** Python's [datetime.date] *)

Module Calendar.

Record date : Type := mkdate { year : Z; month : Z; day : Z }.

Definition MINYEAR : Z := 1.
Definition MAXYEAR : Z := 9999.
Definition MAXORDINAL : Z := 3652059.

Definition DAYS_IN_MONTH (m : Z) : Z :=
  match m with
  | 1 => 31 | 2 => 28 | 3 => 31 | 4 => 30 | 5 => 31 | 6 => 30
  | 7 => 31 | 8 => 31 | 9 => 30 | 10 => 31 | 11 => 30 | 12 => 31
  | _ => -1
  end.

Definition DAYS_BEFORE_MONTH (m : Z) : Z :=
  match m with
  | 1 => 0 | 2 => 31 | 3 => 59 | 4 => 90 | 5 => 120 | 6 => 151
  | 7 => 181 | 8 => 212 | 9 => 243 | 10 => 273 | 11 => 304 | 12 => 334
  | _ => -1
  end.

Definition is_leap (y : Z) : bool :=
  (y mod 4 =? 0) && (negb (y mod 100 =? 0) || (y mod 400 =? 0)).

Definition days_before_year (y : Z) : Z :=
  let y' := y - 1 in
  y' * 365 + y' / 4 - y' / 100 + y' / 400.

Definition days_in_month (y m : Z) : Z :=
  if (m =? 2) && is_leap y then 29 else DAYS_IN_MONTH m.

Definition days_before_month (y m : Z) : Z :=
  DAYS_BEFORE_MONTH m + (if (2 <? m) && is_leap y then 1 else 0).

Definition ymd2ord (y m d : Z) : Z :=
  days_before_year y + days_before_month y m + d.

Definition DI400Y : Z := 146097.
Definition DI100Y : Z := 36524.
Definition DI4Y : Z := 1461.

(** The tail of [_ord2ymd]: month and day from the zero-based day of the
    year. *)
Definition month_day_of_yday (leapyear : bool) (n : Z) : Z * Z :=
  let month := Z.shiftr (n + 50) 5 in
  let preceding :=
    DAYS_BEFORE_MONTH month + (if (2 <? month) && leapyear then 1 else 0) in
  if n <? preceding then
    let month' := month - 1 in
    let preceding' :=
      preceding
      - (DAYS_IN_MONTH month' + (if (month' =? 2) && leapyear then 1 else 0)) in
    (month', n - preceding' + 1)
  else (month, n - preceding + 1).

Definition ord2ymd (n : Z) : date :=
  let n := n - 1 in
  let n400 := n / DI400Y in
  let n := n mod DI400Y in
  let year := n400 * 400 + 1 in
  let n100 := n / DI100Y in
  let n := n mod DI100Y in
  let n4 := n / DI4Y in
  let n := n mod DI4Y in
  let n1 := n / 365 in
  let n := n mod 365 in
  let year := year + n100 * 100 + n4 * 4 + n1 in
  if (n1 =? 4) || (n100 =? 4) then mkdate (year - 1) 12 31
  else
    let leapyear := (n1 =? 3) && (negb (n4 =? 24) || (n100 =? 3)) in
    let '(m, d) := month_day_of_yday leapyear n in
    mkdate year m d.

(** What the [date] constructor checks. *)
Definition valid (d : date) : bool :=
  (MINYEAR <=? year d) && (year d <=? MAXYEAR)
  && (1 <=? month d) && (month d <=? 12)
  && (1 <=? day d) && (day d <=? days_in_month (year d) (month d)).

Definition toordinal (d : date) : Z := ymd2ord (year d) (month d) (day d).
Definition fromordinal (n : Z) : date := ord2ymd n.

(** [d.replace(day=n)] *)
Definition replace_day (d : date) (n : Z) : result date :=
  let d' := mkdate (year d) (month d) n in
  if valid d' then ret d' else raise ValueError.

(** [d - timedelta(days=n)] *)
Definition sub_days (d : date) (n : Z) : result date :=
  let o := toordinal d - n in
  if (0 <? o) && (o <=? MAXORDINAL) then ret (fromordinal o)
  else raise OverflowError.

(** [(d1 - d0).days] *)
Definition days_between (d1 d0 : date) : Z := toordinal d1 - toordinal d0.

(** Dates compare as the tuples [(year, month, day)]. *)
Definition cmp (a b : date) : comparison :=
  match year a ?= year b with
  | Eq => match month a ?= month b with
          | Eq => day a ?= day b
          | c => c
          end
  | c => c
  end.

Definition eqb (a b : date) : bool :=
  match cmp a b with Eq => true | _ => false end.
Definition leb (a b : date) : bool :=
  match cmp a b with Gt => false | _ => true end.
Definition ltb (a b : date) : bool :=
  match cmp a b with Lt => true | _ => false end.

(** Calendar vocabulary used to state the properties of the window. *)
Definition prev_month (y m : Z) : Z * Z :=
  if m =? 1 then (y - 1, 12) else (y, m - 1).

Definition last_day_of (ym : Z * Z) : date :=
  mkdate (fst ym) (snd ym) (days_in_month (fst ym) (snd ym)).

(** Zero-based day of the year and length of a month, by leap flag, and
    the check that [month_day_of_yday] inverts [yday] on one date. *)
Definition yday (leap : bool) (m d : Z) : Z :=
  DAYS_BEFORE_MONTH m + (if (2 <? m) && leap then 1 else 0) + d - 1.

Definition month_length (leap : bool) (m : Z) : Z :=
  DAYS_IN_MONTH m + (if (m =? 2) && leap then 1 else 0).

Definition month_day_check (leap : bool) (m d : nat) : bool :=
  let m := Z.of_nat m in
  let d := Z.of_nat d in
  if d <=? month_length leap m then
    let '(m', d') := month_day_of_yday leap (yday leap m d) in
    (m' =? m) && (d' =? d)
  else true.

End Calendar.


(** ** The NAV table: the fragment of pandas *)

Module Frame.
Import Calendar.

(** A pandas [Timestamp]: a calendar date and the time of day, in
    nanoseconds since midnight.  Timestamps are ordered chronologically;
    [.dt.date] forgets the time of day. *)
Record Timestamp : Type := mkts { ts_date : date; ts_nanos : Z }.

Definition ts_leb (a b : Timestamp) : bool :=
  match cmp (ts_date a) (ts_date b) with
  | Lt => true
  | Eq => ts_nanos a <=? ts_nanos b
  | Gt => false
  end.

(** One element of the JSON list under ["data"], with its two fields. *)
Record RawRecord : Type := mkraw { raw_date : string; raw_nav : string }.

(** A row while the two columns are being parsed with [errors="coerce"]:
    an unparseable date is [NaT] ([None]), an unparseable number is [nan]. *)
Record ParsedRow : Type := mkparsed { p_date : option Timestamp; p_nav : float }.

(** A row of the frame [get_nav_data] returns. *)
Record Row : Type := mkrow { row_date : Timestamp; row_nav : float }.

Definition DataFrame : Type := list Row.

Definition row_le (a b : Row) : Prop := ts_leb (row_date a) (row_date b) = true.

(** [df.dropna(subset=["date", "nav"])] *)
Definition dropna (rows : list ParsedRow) : DataFrame :=
  flat_map
    (fun r =>
       match p_date r with
       | Some t => if is_nan (p_nav r) then [] else [mkrow t (p_nav r)]
       | None => []
       end)
    rows.

(** The rows [dropna] keeps. *)
Definition complete (r : ParsedRow) : bool :=
  match p_date r with
  | Some _ => negb (is_nan (p_nav r))
  | None => false
  end.

(** A kept row, seen again as a parsed row. *)
Definition as_parsed (r : Row) : ParsedRow :=
  mkparsed (Some (row_date r)) (row_nav r).

(** [df.iloc[-1]], with [None] for the empty frame. *)
Fixpoint iloc_last {A : Type} (l : list A) : option A :=
  match l with
  | [] => None
  | [x] => Some x
  | _ :: l' => iloc_last l'
  end.

End Frame.

(** ** [get_nav_data], [last_nav_on_or_before], [monthly_rolling_return] *)

Module Nav.
Import Calendar Frame.

(** What [requests.get] hands back: the status and the decoded
    [resp.json().get("data", [])]. *)
Record Response : Type :=
  mkresp { status_code : Z; json_data : result (list RawRecord) }.

(** The dict [{"date": ..., "nav": ...}] of [last_nav_on_or_before]. *)
Record Observation : Type := mkobs { obs_date : date; obs_nav : float }.

(** [f"https://api.mfapi.in/mf/{scheme_code}"] *)
Definition scheme_url (scheme_code : string) : string :=
  String.append "https://api.mfapi.in/mf/" scheme_code.

Section Pandas.

(** [pd.to_datetime(_, dayfirst=True, errors="coerce")] on the date
    column: pandas reads the column as a whole (the format it reads an
    element with depends on the other elements), so the parser takes the
    column and returns a timestamp or [NaT] for each position;
    [pd.to_numeric(_, errors="coerce")] on one element; and
    [df.sort_values("date")]. *)
Variable to_datetime : list string -> list (option Timestamp).
Variable to_numeric : string -> float.
Variable sort_values : DataFrame -> DataFrame.

(** The two [df[...] = pd.to_...(df[...], errors="coerce")] lines. *)
Definition parse_columns (data : list RawRecord) : list ParsedRow :=
  map (fun p => mkparsed (fst p) (to_numeric (raw_nav (snd p))))
      (combine (to_datetime (map raw_date data)) data).

Definition get_nav_data (requests_get : string -> result Response)
    (scheme_code : string) : result DataFrame :=
  (let url := scheme_url scheme_code in
   resp <- requests_get url ;;
   if negb (status_code resp =? 200)
   then raise (RuntimeError (HttpStatus (status_code resp) scheme_code))
   else
     data <- json_data resp ;;
     match data with
     | [] => raise (RuntimeError (NoDataReturned scheme_code))
     | _ =>
         let df := parse_columns data in
         ret (sort_values (dropna df))
     end)%result.

End Pandas.

(** [{"date": row["date"].date(), "nav": float(row["nav"])}] *)
Definition observation (row : Row) : Observation :=
  mkobs (ts_date (row_date row)) (row_nav row).

(** The mask [df["date"].dt.date <= d], on one row. *)
Definition on_or_before (d : date) (r : Row) : bool :=
  leb (ts_date (row_date r)) d.

Definition last_nav_on_or_before (df : DataFrame) (target_date : date)
    : option Observation :=
  let df_before := filter (on_or_before target_date) df in
  match iloc_last df_before with
  | None => None
  | Some row => Some (observation row)
  end.

(** [d.replace(day=1) - dt.timedelta(days=1)] *)
Definition end_of_previous_month (d : date) : result date :=
  (first <- replace_day d 1 ;; sub_days first 1)%result.

(** The two reference dates of [monthly_rolling_return], as the pair
    [(last_day_two_months_ago, last_day_prev_month)]. *)
Definition reference_window (today : date) : result (date * date) :=
  (last_day_prev_month <- end_of_previous_month today ;;
   last_day_two_months_ago <- end_of_previous_month last_day_prev_month ;;
   ret (last_day_two_months_ago, last_day_prev_month))%result.

(** Conversion of the Python [int] [days] in [365.0 / days]. *)
Definition float_of_int (n : Z) : float := of_uint63 (Uint63.of_Z n).

(** The row in the last position among those dated exactly [d]. *)
Definition last_with_date (d : date) (df : DataFrame) : option Row :=
  iloc_last (filter (fun r => eqb (ts_date (row_date r)) d) df).

(** [today] is the value [dt.date.today()] returns at the call. *)
Definition monthly_rolling_return (today : date) (df : DataFrame)
    : result (option float) :=
  (last_day_prev_month <- end_of_previous_month today ;;
   last_day_two_months_ago <- end_of_previous_month last_day_prev_month ;;
   let t1 := last_nav_on_or_before df last_day_prev_month in
   let t0 := last_nav_on_or_before df last_day_two_months_ago in
   match t0, t1 with
   | Some t0, Some t1 =>
       let start_nav := obs_nav t0 in
       let end_nav := obs_nav t1 in
       let days := days_between (obs_date t1) (obs_date t0) in
       if (days <=? 0) || (start_nav =? 0)%float then ret None
       else
         let rr :=
           (((end_nav - start_nav) / start_nav)
            * (365 / float_of_int days))%float in
         ret (Some rr)
   | _, _ => ret None
   end)%result.

End Nav.


(** ** [build_results]: the loop over the scheme catalogue *)

Module Runner.
Import Calendar Frame Nav.

(** Python dicts keep insertion order, and the report depends on it:
    a dict is the list of its items. *)
Definition dict (V : Type) : Type := list (string * V).

Fixpoint dict_get {V : Type} (k : string) (d : dict V) : option V :=
  match d with
  | [] => None
  | (k', v) :: d' => if String.eqb k k' then Some v else dict_get k d'
  end.

(** [k in d] *)
Definition dict_mem {V : Type} (k : string) (d : dict V) : bool :=
  match dict_get k d with Some _ => true | None => false end.

(** [d[k] = v] *)
Fixpoint dict_set {V : Type} (k : string) (v : V) (d : dict V) : dict V :=
  match d with
  | [] => [(k, v)]
  | (k', v') :: d' =>
      if String.eqb k k' then (k', v) :: d' else (k', v') :: dict_set k v d'
  end.

(** [d[k].append(x)], for a key that is present. *)
Fixpoint dict_append {V : Type} (k : string) (x : V) (d : dict (list V))
    : dict (list V) :=
  match d with
  | [] => []
  | (k', l) :: d' =>
      if String.eqb k k' then (k', l ++ [x]) :: d'
      else (k', l) :: dict_append k x d'
  end.

(** Values stored in a report row. *)
Inductive value : Type :=
| VStr (s : string)
| VFloat (f : float)
| VNone.

Definition ReportRow : Type := dict value.

(** [scheme_codes]: AMC -> category -> plan -> scheme code or [null]. *)
Definition Plans : Type := dict (option string).
Definition Catalog : Type := dict (dict Plans).

(** [plans.get(plan)] *)
Definition plans_get (plan : string) (plans : Plans) : option string :=
  match dict_get plan plans with
  | Some (Some code) => Some code
  | _ => None
  end.

(** The lines handed to [logger]; the first two fields are
    [task_counter] and [total_tasks]. *)
Inductive log_line : Type :=
| LogProcessing (amc : string)
| LogSkipping (n total : nat) (amc category plan : string)
| LogFetching (n total : nat) (amc category plan code : string)
| LogInsufficient (n total : nat) (amc category plan : string)
| LogReturn (n total : nat) (amc category plan : string) (rr : float)
| LogError (n total : nat) (amc category plan : string) (e : exn)
| LogTraceback (e : exn).

(** The outside world during one run, by the value of [task_counter] at
    which it is consulted: the outcome of the HTTP request issued for that
    task, and the date [dt.date.today()] returns while it is processed. *)
Record World : Type := mkworld {
  requests_get : nat -> string -> result Response;
  today : nat -> date
}.

Record RunState : Type := mkstate {
  results : dict (list ReportRow);
  task_counter : nat;
  logged : list log_line
}.

Definition value_of (rr : option float) : value :=
  match rr with
  | Some v => VFloat v
  | None => VNone
  end.

Definition column (plan : string) : string :=
  String.append "Rolling Return - " plan.

Section Loop.

Variable to_datetime : list string -> list (option Timestamp).
Variable to_numeric : string -> float.
Variable sort_values : DataFrame -> DataFrame.
Variable w : World.

(** The body of the [try]. *)
Definition fetch_and_compute (n : nat) (code : string)
    : result (option float) :=
  (df_nav <- get_nav_data to_datetime to_numeric sort_values
               (requests_get w n) code ;;
   monthly_rolling_return (today w n) df_nav)%result.

Section Body.

Variable total_tasks : nat.

(** One turn of [for plan in ["Direct", "Regular"]]. *)
Definition plan_step (amc category : string) (plans : Plans)
    (s : ReportRow * nat * list log_line) (plan : string)
    : ReportRow * nat * list log_line :=
  let '(row, task_counter, lg) := s in
  let task_counter := S task_counter in
  match plans_get plan plans with
  | None =>
      let lg :=
        lg ++ [LogSkipping task_counter total_tasks amc category plan] in
      (dict_set (column plan) VNone row, task_counter, lg)
  | Some code =>
      let lg :=
        lg ++ [LogFetching task_counter total_tasks amc category plan code] in
      match fetch_and_compute task_counter code with
      | inr rr =>
          let row := dict_set (column plan) (value_of rr) row in
          let line :=
            match rr with
            | None =>
                LogInsufficient task_counter total_tasks amc category plan
            | Some v => LogReturn task_counter total_tasks amc category plan v
            end in
          (row, task_counter, lg ++ [line])
      | inl e =>
          let lg :=
            lg ++ [LogError task_counter total_tasks amc category plan e;
                   LogTraceback e] in
          (dict_set (column plan) VNone row, task_counter, lg)
      end
  end.

(** One turn of [for category, plans in cat_dict.items()]. *)
Definition category_step (amc : string) (st : RunState)
    (item : string * Plans) : RunState :=
  let '(category, plans) := item in
  let results :=
    if dict_mem category (results st) then results st
    else dict_set category [] (results st) in
  let row := [("AMC"%string, VStr amc)] in
  let '(row, task_counter, lg) :=
    fold_left (plan_step amc category plans)
              ["Direct"%string; "Regular"%string]
              (row, task_counter st, logged st) in
  mkstate (dict_append category row results) task_counter lg.

(** One turn of [for amc, cat_dict in scheme_codes.items()]. *)
Definition amc_step (st : RunState) (item : string * dict Plans) : RunState :=
  let '(amc, cat_dict) := item in
  let st :=
    mkstate (results st) (task_counter st)
            (logged st ++ [LogProcessing amc]) in
  fold_left (category_step amc) cat_dict st.

End Body.

Definition run (scheme_codes : Catalog) : RunState :=
  let total_tasks :=
    list_sum (map (fun item => List.length (snd item) * 2)%nat scheme_codes) in
  fold_left (amc_step total_tasks) scheme_codes (mkstate [] 0%nat []).

Definition build_results (scheme_codes : Catalog) : dict (list ReportRow) :=
  results (run scheme_codes).

(** What is stored in the row for the task numbered [n] whose scheme code
    is [code]. *)
Definition plan_result (n : nat) (code : option string) : value :=
  match code with
  | None => VNone
  | Some code =>
      match fetch_and_compute n code with
      | inr rr => value_of rr
      | inl _ => VNone
      end
  end.

End Loop.

End Runner.

(** ** The report as a function of the catalogue and of one value per task

    [build_results] numbers its tasks with [task_counter]: two per
    (AMC, category) pair, in catalogue order.  The definitions below lay
    the report out from the list of the values computed for the tasks. *)

Module Report.
Import Runner.

(** The (AMC, category) pairs of the catalogue with their plans, in
    iteration order. *)
Definition pairs (c : Catalog) : list (string * string * Plans) :=
  flat_map
    (fun item => map (fun entry => (fst item, fst entry, snd entry)) (snd item))
    c.

Definition pair_amc (p : string * string * Plans) : string := fst (fst p).
Definition pair_category (p : string * string * Plans) : string :=
  snd (fst p).
Definition pair_plans (p : string * string * Plans) : Plans := snd p.

(** The (category, AMC) skeleton of the report. *)
Definition layout (c : Catalog) : list (string * string) :=
  map (fun p => (pair_category p, pair_amc p)) (pairs c).

(** The scheme code of each task, in task order. *)
Definition codes (c : Catalog) : list (option string) :=
  flat_map
    (fun p => [plans_get "Direct" (pair_plans p);
               plans_get "Regular" (pair_plans p)])
    (pairs c).

(** One value per task: task [n + 1 + i] gets [f] of its number and of
    the [i]-th code. *)
Fixpoint cells_from (f : nat -> option string -> value) (n : nat)
    (cs : list (option string)) : list value :=
  match cs with
  | [] => []
  | code :: cs' => f (S n) code :: cells_from f (S n) cs'
  end.

Definition make_row (amc : string) (direct regular : value) : ReportRow :=
  [("AMC"%string, VStr amc);
   (column "Direct", direct); (column "Regular", regular)].

(** The rows, each under its category, from the skeleton and the values. *)
Fixpoint fill (lay : list (string * string)) (vals : list value)
    : list (string * ReportRow) :=
  match lay, vals with
  | (category, amc) :: lay', v1 :: v2 :: vals' =>
      (category, make_row amc v1 v2) :: fill lay' vals'
  | _, _ => []
  end.

Definition add_row (res : dict (list ReportRow)) (item : string * ReportRow)
    : dict (list ReportRow) :=
  dict_append (fst item) (snd item)
    (if dict_mem (fst item) res then res else dict_set (fst item) [] res).

(** The rows recorded under a category. *)
Definition rows_of (k : string) (res : dict (list ReportRow))
    : list ReportRow :=
  match dict_get k res with
  | Some l => l
  | None => []
  end.

Definition group_rows (rows : list (string * ReportRow))
    : dict (list ReportRow) :=
  fold_left add_row rows [].

Definition report_of (f : nat -> option string -> value) (c : Catalog)
    : dict (list ReportRow) :=
  group_rows (fill (layout c) (cells_from f 0 (codes c))).

(** The rows of a list of pairs whose first task is numbered [n + 1]. *)
Definition pair_rows (f : nat -> option string -> value) (n : nat)
    (ps : list (string * string * Plans)) : list (string * ReportRow) :=
  fill (map (fun p => (pair_category p, pair_amc p)) ps)
       (cells_from f n
          (flat_map
             (fun p => [plans_get "Direct" (pair_plans p);
                        plans_get "Regular" (pair_plans p)])
             ps)).

(** The elements of a list with their position, counted from [n]. *)
Fixpoint numbered {A : Type} (n : nat) (l : list A) : list (nat * A) :=
  match l with
  | [] => []
  | x :: l' => (n, x) :: numbered (S n) l'
  end.

(** The row of the pair at position [j] of the catalogue: its two plans
    are the tasks [2j + 1] and [2j + 2], and each cell is [f] of the task
    number and of the scheme code the pair declares for the plan. *)
Definition row_of_pair (f : nat -> option string -> value)
    (jp : nat * (string * string * Plans)) : ReportRow :=
  make_row (pair_amc (snd jp))
    (f (2 * fst jp + 1)%nat (plans_get "Direct" (pair_plans (snd jp))))
    (f (2 * fst jp + 2)%nat (plans_get "Regular" (pair_plans (snd jp)))).

(** The keys of a list in the order of their first occurrence. *)
Fixpoint first_seen (l : list string) : list string :=
  match l with
  | [] => []
  | k :: l' => k :: filter (fun k' => negb (String.eqb k' k)) (first_seen l')
  end.

Definition in_category (category : string) (p : string * string * Plans)
    : bool :=
  String.eqb (pair_category p) category.

(** [total_tasks], as [build_results] computes it before the loop. *)
Definition total_tasks (c : Catalog) : nat :=
  list_sum (map (fun item => List.length (snd item) * 2)%nat c).

(** The progress marker [[n/total]] a log line starts with, if any. *)
Definition progress (l : log_line) : option (nat * nat) :=
  match l with
  | LogProcessing _ => None
  | LogSkipping n total _ _ _ => Some (n, total)
  | LogFetching n total _ _ _ _ => Some (n, total)
  | LogInsufficient n total _ _ _ => Some (n, total)
  | LogReturn n total _ _ _ _ => Some (n, total)
  | LogError n total _ _ _ _ => Some (n, total)
  | LogTraceback _ => None
  end.

(** The log up to task [tc]: every marker is [[n/total]] with
    [1 <= n <= tc], and every task up to [tc] has a line. *)
Definition log_upto (total tc : nat) (lg : list log_line) : Prop :=
  (forall l n t, In l lg -> progress l = Some (n, t) ->
                 t = total /\ (1 <= n <= tc)%nat) /\
  (forall n, (1 <= n <= tc)%nat ->
             exists l, In l lg /\ progress l = Some (n, total)).

Definition state_ok (total : nat) (st : RunState) : Prop :=
  log_upto total (task_counter st) (logged st).

End Report.

(** ** The redesign the specification describes: the window computed once *)

Module Spec.
Import Calendar Frame Nav Runner Report.

(** Section 4.2: [end_date] is the last day of the month before the
    current month, [start_date] the last day of the month before
    [end_date]'s month. *)
Definition reference_window (current : date) : date * date :=
  let end_month := prev_month (year current) (month current) in
  let start_month := prev_month (fst end_month) (snd end_month) in
  (last_day_of start_month, last_day_of end_month).

(** Section 4.4: [compute(series, window)]. *)
Definition compute (series : DataFrame) (window : date * date)
    : option float :=
  match last_nav_on_or_before series (fst window),
        last_nav_on_or_before series (snd window) with
  | Some t0, Some t1 =>
      let days := days_between (obs_date t1) (obs_date t0) in
      if days <=? 0 then None
      else if (obs_nav t0 =? 0)%float then None
      else Some (((obs_nav t1 - obs_nav t0) / obs_nav t0)
                 * (365 / float_of_int days))%float
  | _, _ => None
  end.

(** Section 4.1: a record is admitted when its date and its value both
    parse.  [p] is a record with what the date column reads at its
    position; [reading] is the record as read. *)
Definition admitted (to_numeric : string -> float)
    (p : option Timestamp * RawRecord) : bool :=
  match fst p with
  | Some _ => negb (is_nan (to_numeric (raw_nav (snd p))))
  | None => false
  end.

Definition reading (to_numeric : string -> float)
    (p : option Timestamp * RawRecord) : ParsedRow :=
  mkparsed (fst p) (to_numeric (raw_nav (snd p))).

Section Once.

Variable to_datetime : list string -> list (option Timestamp).
Variable to_numeric : string -> float.
Variable sort_values : DataFrame -> DataFrame.
Variable w : World.
Variable window : date * date.

(** Section 4.5 for one plan, with the window handed in. *)
Definition plan_result_once (n : nat) (code : option string) : value :=
  match code with
  | None => VNone
  | Some code =>
      match get_nav_data to_datetime to_numeric sort_values
              (requests_get w n) code with
      | inr series => value_of (compute series window)
      | inl _ => VNone
      end
  end.

End Once.

(** The run that computes the window once, from the date [current] at
    which it starts, and reuses it for every item. *)
Definition build_results_once
    (to_datetime : list string -> list (option Timestamp))
    (to_numeric : string -> float)
    (sort_values : DataFrame -> DataFrame) (w : World) (current : date)
    (c : Catalog) : dict (list ReportRow) :=
  let window := reference_window current in
  report_of (plan_result_once to_datetime to_numeric sort_values w window) c.

End Spec.

(** ** [export_to_excel] and [run_all]

    The workbook is modelled by the calls the function makes on each
    worksheet, in order; [df.to_excel] is one of them.  What the
    spreadsheet library does with the calls (and whether it accepts a
    sheet name or a file path) is outside the model. *)

Module Excel.
Import Calendar Nav Runner.

Fixpoint foldM {A B : Type} (f : A -> B -> result A) (l : list B) (a : A)
    : result A :=
  match l with
  | [] => ret a
  | x :: l' => bind (f a x) (foldM f l')
  end.

Inductive cell_format : Type := header_fmt | percent_fmt | normal_fmt.
Inductive range_format : Type := thin_border_fmt | thick_outer_fmt.

(** The value handed to [worksheet.write]. *)
Inductive cell : Type :=
| CellBlank
| CellString (s : string)
| CellNumber (f : float).

Inductive sheet_op : Type :=
| ToExcel (rows : list ReportRow) (columns : list string)
          (startrow startcol : nat)
| SetRow (row height : nat)
| SetColumn (first_col last_col width : nat)
| Write (row col : nat) (v : cell) (fmt : cell_format)
| ConditionalFormat (first_row first_col last_row last_col : nat)
                    (fmt : range_format).

Inductive export_line : Type :=
| LogNoRows (category : string)
| LogWroteSheet (category : string) (n : nat)
| LogFileWritten (filename : string).

Definition expected_cols : list string :=
  ["AMC"; "Rolling Return - Direct"; "Rolling Return - Regular"]%string.

(** [pd.DataFrame(rows).empty]: no row, or no column in any row. *)
Definition df_empty (rows : list ReportRow) : bool :=
  forallb (fun row => match row with [] => true | _ => false end) rows.

(** [col_widths[col]]; the key is always present. *)
Definition width_of (col : string) (col_widths : dict nat) : nat :=
  match dict_get col col_widths with
  | Some n => n
  | None => 0%nat
  end.

Section Formatting.

(** [str(x)] and [f"{x:.2f}"] on a float, and [d.strftime("%b-%Y")]. *)
Variable str_of_float : float -> string.
Variable format_2f : float -> string.
Variable strftime_b_Y : date -> string.

(** What is written for one cell, with its format and [display_text].
    A string under a result column makes [float(raw_val)] or the
    [:.2f] format raise [ValueError]. *)
Definition render (col : string) (raw_val : option value)
    : result (cell * cell_format * string) :=
  if String.prefix "Rolling Return" col then
    match raw_val with
    | None | Some VNone => ret (CellBlank, normal_fmt, EmptyString)
    | Some (VFloat f) =>
        if is_nan f || is_infinity f
        then ret (CellBlank, normal_fmt, EmptyString)
        else ret (CellNumber f, percent_fmt,
                  String.append (format_2f (f * 100)%float) "%")
    | Some (VStr _) => raise ValueError
    end
  else
    match raw_val with
    | None | Some VNone => ret (CellString EmptyString, normal_fmt, EmptyString)
    | Some (VStr s) => ret (CellString s, normal_fmt, s)
    | Some (VFloat f) =>
        ret (CellString (str_of_float f), normal_fmt, str_of_float f)
    end.

(** One turn of [for c_idx, col in enumerate(df.columns, start=1)]. *)
Definition write_cell (r_idx : nat) (row : ReportRow)
    (st : list sheet_op * dict nat * nat) (col : string)
    : result (list sheet_op * dict nat * nat) :=
  let '(ops, col_widths, c_idx) := st in
  let raw_val := dict_get col row in
  bind (render col raw_val) (fun rendered =>
    let '(v, fmt, display_text) := rendered in
    let col_widths :=
      dict_set col
        (Nat.max (width_of col col_widths) (String.length display_text))
        col_widths in
    ret (ops ++ [Write r_idx c_idx v fmt], col_widths, S c_idx)).

(** One turn of [for r_idx, row in enumerate(rows, start=2)]. *)
Definition write_row (st : list sheet_op * dict nat * nat) (row : ReportRow)
    : result (list sheet_op * dict nat * nat) :=
  let '(ops, col_widths, r_idx) := st in
  bind (foldM (write_cell r_idx row) expected_cols (ops, col_widths, 1%nat))
       (fun st' =>
          let '(ops, col_widths, _) := st' in
          ret (ops, col_widths, S r_idx)).

(** The header writes and the final column widths. *)
Fixpoint write_headers (c_idx : nat) (cols : list string) : list sheet_op :=
  match cols with
  | [] => []
  | col :: cols' =>
      Write 1 c_idx (CellString col) header_fmt :: write_headers (S c_idx) cols'
  end.

Fixpoint set_widths (idx : nat) (cols : list string) (col_widths : dict nat)
    : list sheet_op :=
  match cols with
  | [] => []
  | col :: cols' =>
      let width :=
        (match dict_get col col_widths with
         | Some n => n
         | None => String.length col
         end + 2)%nat in
      let width := if (width <? 8)%nat then 8%nat else width in
      SetColumn idx idx width :: set_widths (S idx) cols' col_widths
  end.

(** The body of [for category, rows in results.items()]: the calls made
    on the sheet, or [None] when the sheet is skipped. *)
Definition export_sheet (category : string) (rows : list ReportRow)
    : result (option (list sheet_op) * list export_line) :=
  if df_empty rows then ret (None, [LogNoRows category])
  else
    let ops :=
      [ToExcel rows expected_cols 1 1; SetRow 0 6; SetColumn 0 0 2]
      ++ write_headers 1 expected_cols in
    let col_widths :=
      map (fun col => (col, String.length col)) expected_cols in
    bind (foldM write_row rows (ops, col_widths, 2%nat)) (fun st =>
      let '(ops, col_widths, _) := st in
      let n_rows := (List.length rows + 1)%nat in
      let n_cols := List.length expected_cols in
      let ops :=
        ops
        ++ [ConditionalFormat 1 1 (n_rows + 1) n_cols thin_border_fmt;
            ConditionalFormat 1 1 (n_rows + 1) n_cols thick_outer_fmt]
        ++ set_widths 1 expected_cols col_widths in
      ret (Some ops, [LogWroteSheet category (List.length rows)])).

Definition sheet_step
    (acc : list (string * list sheet_op) * list export_line)
    (item : string * list ReportRow)
    : result (list (string * list sheet_op) * list export_line) :=
  let '(sheets, lg) := acc in
  bind (export_sheet (fst item) (snd item)) (fun out =>
    match fst out with
    | Some ops => ret (sheets ++ [(fst item, ops)], lg ++ snd out)
    | None => ret (sheets, lg ++ snd out)
    end).

(** [today] is the value [dt.date.today()] returns at the call; the
    result is the file name, the sheets in the order of their creation
    and the lines logged. *)
Definition export_to_excel (today : date) (results : dict (list ReportRow))
    : result (string * list (string * list sheet_op) * list export_line) :=
  bind (end_of_previous_month today) (fun report_date =>
    let report_month := strftime_b_Y report_date in
    let filename :=
      String.append "Rolling_Returns_" (String.append report_month ".xlsx") in
    bind (foldM sheet_step results ([], [])) (fun out =>
      ret (filename, fst out, snd out ++ [LogFileWritten filename]))).

(** The same calls, cell by cell: what a result cell and an AMC cell
    receive, the three writes of a row and the widths after a row. *)
Definition is_text (raw_val : option value) : bool :=
  match raw_val with
  | Some (VStr _) => true
  | _ => false
  end.

Definition result_cell (raw_val : option value) : cell * cell_format :=
  match raw_val with
  | Some (VFloat f) =>
      if is_finite f then (CellNumber f, percent_fmt)
      else (CellBlank, normal_fmt)
  | _ => (CellBlank, normal_fmt)
  end.

Definition result_text (raw_val : option value) : string :=
  match raw_val with
  | Some (VFloat f) =>
      if is_finite f then String.append (format_2f (f * 100)%float) "%"
      else EmptyString
  | _ => EmptyString
  end.

Definition amc_text (raw_val : option value) : string :=
  match raw_val with
  | Some (VStr s) => s
  | Some (VFloat f) => str_of_float f
  | _ => EmptyString
  end.

Definition display_text (col : string) (row : ReportRow) : string :=
  if String.prefix "Rolling Return" col then result_text (dict_get col row)
  else amc_text (dict_get col row).

Definition row_has_text (row : ReportRow) : bool :=
  is_text (dict_get (column "Direct") row)
  || is_text (dict_get (column "Regular") row).

Definition row_ops (r_idx : nat) (row : ReportRow) : list sheet_op :=
  let direct := result_cell (dict_get (column "Direct") row) in
  let regular := result_cell (dict_get (column "Regular") row) in
  [Write r_idx 1 (CellString (amc_text (dict_get "AMC" row))) normal_fmt;
   Write r_idx 2 (fst direct) (snd direct);
   Write r_idx 3 (fst regular) (snd regular)].

Fixpoint rows_ops (r_idx : nat) (rows : list ReportRow) : list sheet_op :=
  match rows with
  | [] => []
  | row :: rows' => row_ops r_idx row ++ rows_ops (S r_idx) rows'
  end.

Definition widen (row : ReportRow) (col_widths : dict nat) (col : string)
    : dict nat :=
  dict_set col
    (Nat.max (width_of col col_widths)
             (String.length (display_text col row)))
    col_widths.

Definition row_widths (col_widths : dict nat) (row : ReportRow) : dict nat :=
  fold_left (widen row) expected_cols col_widths.

(** The widths before the first row, and the calls a sheet receives. *)
Definition header_widths : dict nat :=
  map (fun col => (col, String.length col)) expected_cols.

Definition sheet_layout (rows : list ReportRow) : list sheet_op :=
  [ToExcel rows expected_cols 1 1; SetRow 0 6; SetColumn 0 0 2]
  ++ write_headers 1 expected_cols
  ++ rows_ops 2 rows
  ++ [ConditionalFormat 1 1 (List.length rows + 2) 3 thin_border_fmt;
      ConditionalFormat 1 1 (List.length rows + 2) 3 thick_outer_fmt]
  ++ set_widths 1 expected_cols (fold_left row_widths rows header_widths).

(** A category whose frame is not empty and holds a string under a
    result column. *)
Definition sheet_fails (item : string * list ReportRow) : bool :=
  negb (df_empty (snd item)) && existsb row_has_text (snd item).

Definition sheet_line (item : string * list ReportRow) : export_line :=
  if df_empty (snd item) then LogNoRows (fst item)
  else LogWroteSheet (fst item) (List.length (snd item)).

Definition has_frame (item : string * list ReportRow) : bool :=
  negb (df_empty (snd item)).

Definition sheet_of (item : string * list ReportRow)
    : string * list sheet_op :=
  (fst item, sheet_layout (snd item)).

Definition report_file (report_date : date) : string :=
  String.append "Rolling_Returns_"
    (String.append (strftime_b_Y report_date) ".xlsx").

(** The sheet column of a plan. *)
Definition plan_col (plan : string) : nat :=
  if String.eqb plan "Direct" then 2%nat else 3%nat.

End Formatting.

(** How [run_all] ends. *)
Inductive outcome : Type :=
| NoResults
| Success (filename : string) (sheets : list (string * list sheet_op))
| Fatal (e : exn).

Section RunAll.

Variable to_datetime : list string -> list (option Frame.Timestamp).
Variable to_numeric : string -> float.
Variable sort_values : Frame.DataFrame -> Frame.DataFrame.
Variable str_of_float : float -> string.
Variable format_2f : float -> string.
Variable strftime_b_Y : date -> string.

(** The date is read once more for the file name, after the last task. *)
Definition run_all (w : World) (scheme_codes : Catalog) : outcome :=
  let st := run to_datetime to_numeric sort_values w scheme_codes in
  match results st with
  | [] => NoResults
  | _ =>
      match export_to_excel str_of_float format_2f strftime_b_Y
              (today w (S (task_counter st))) (results st) with
      | inr out => Success (fst (fst out)) (snd (fst out))
      | inl e => Fatal e
      end
  end.

End RunAll.

End Excel.

(** ** A concrete table library

    Parsers for the two literal forms the feed publishes ([dd-mm-yyyy] and
    plain decimals, with [inf] and [-inf]; anything else is [NaT] or
    [nan]) and an insertion sort on the date column.  The date column is
    read in the one form [dd-mm-yyyy], the form pandas settles on for a
    column that starts with a date of that form, as every sample below
    does.  The theorems below hold for any parsers and any sort that
    returns its input reordered by date; this instance runs them. *)

Module Demo.
Import Calendar Frame Nav.

Definition digit (c : Ascii.ascii) : option Z :=
  let n := Z.of_N (Ascii.N_of_ascii c) in
  if (48 <=? n) && (n <=? 57) then Some (n - 48) else None.

Fixpoint digits (s : string) (acc : Z) : option Z :=
  match s with
  | EmptyString => Some acc
  | String c s' =>
      match digit c with
      | Some d => digits s' (10 * acc + d)
      | None => None
      end
  end.

Definition number (s : string) : option Z :=
  match s with
  | EmptyString => None
  | _ => digits s 0
  end.

(** The text before the first [sep], and the text after it if there is
    one. *)
Fixpoint split_at (sep : Ascii.ascii) (s : string) : string * option string :=
  match s with
  | EmptyString => (EmptyString, None)
  | String c s' =>
      if Ascii.eqb c sep then (EmptyString, Some s')
      else let '(a, b) := split_at sep s' in (String c a, b)
  end.

(** One element in the form [dd-mm-yyyy]. *)
Definition read_dmy (s : string) : option Timestamp :=
  let '(dd, rest) := split_at "-"%char s in
  match rest with
  | None => None
  | Some rest =>
      let '(mm, yyyy) := split_at "-"%char rest in
      match yyyy with
      | None => None
      | Some yyyy =>
          match number dd, number mm, number yyyy with
          | Some d, Some m, Some y =>
              let dt := mkdate y m d in
              if valid dt then Some (mkts dt 0) else None
          | _, _, _ => None
          end
      end
  end.

(** The date column of a feed in the form [dd-mm-yyyy]: every element is
    read in that form, and an element of another form is [NaT]. *)
Definition to_datetime (col : list string) : list (option Timestamp) :=
  map read_dmy col.

Definition to_numeric (s : string) : float :=
  let '(negative, body) :=
    match s with
    | String "-"%char s' => (true, s')
    | _ => (false, s)
    end in
  if String.eqb body "inf" then
    if negative then neg_infinity else infinity
  else
    let '(whole, frac) := split_at "."%char body in
    let frac := match frac with Some f => f | None => EmptyString end in
    match number whole, digits frac 0 with
    | Some _, Some _ =>
        match digits (String.append whole frac) 0 with
        | Some m =>
            let v :=
              (float_of_int m
               / float_of_int (10 ^ Z.of_nat (String.length frac)))%float in
            if negative then (- v)%float else v
        | None => nan
        end
    | _, _ => nan
    end.

Fixpoint insert_row (r : Row) (df : DataFrame) : DataFrame :=
  match df with
  | [] => [r]
  | x :: df' =>
      if ts_leb (row_date r) (row_date x) then r :: df
      else x :: insert_row r df'
  end.

Definition sort_values (df : DataFrame) : DataFrame :=
  fold_right insert_row [] df.

Definition get_nav_data := Nav.get_nav_data to_datetime to_numeric sort_values.

(** A server that answers every request with status 200 and [data]. *)
Definition serving (data : list RawRecord) (url : string) : result Response :=
  ret (mkresp 200 (ret data)).

(** Python's formatting of a number and of a date: [f"{x:.2f}"],
    [str(x)] (the shortest digits that read back as [x]) and
    [d.strftime("%b-%Y")] in the C locale.  A finite number is
    [m * 2 ^ e] with [m] and [e] integers, so the digits are computed on
    integers. *)

Local Open Scope string_scope.
Local Open Scope Z_scope.

Definition decimal (n : Z) : string :=
  NilZero.string_of_uint (N.to_uint (Z.to_N n)).

Fixpoint zeros (n : nat) : string :=
  match n with
  | O => EmptyString
  | S n' => String "0"%char (zeros n')
  end.

(** [n] in at least [width] digits. *)
Definition padded (width : nat) (n : Z) : string :=
  let s := decimal n in
  String.append (zeros (width - String.length s)) s.

(** The integer nearest to [t / a], the even one of two at equal distance. *)
Definition nearest (t a : Z) : Z :=
  let q := t / a in
  let r := t mod a in
  if 2 * r <? a then q
  else if a <? 2 * r then q + 1
  else if Z.even q then q else q + 1.

Definition sign_text (s : bool) : string := if s then "-" else "".

(** [f"{x:.2f}"]. *)
Definition format_2f (x : float) : string :=
  match Prim2SF x with
  | S754_nan => "nan"
  | S754_infinity s => String.append (sign_text s) "inf"
  | S754_zero s => String.append (sign_text s) "0.00"
  | S754_finite s m e =>
      let n :=
        if 0 <=? e then Z.pos m * 100 * 2 ^ e
        else nearest (Z.pos m * 100) (2 ^ (- e)) in
      String.append (sign_text s)
        (String.append (decimal (n / 100))
           (String.append "." (padded 2 (n mod 100))))
  end.

(** The shortest decimal [d * 10 ^ q] that reads back as [m * 2 ^ e], the
    nearest one of several; [q] is searched downwards from a bound on the
    decimal exponent of the number. *)
Definition candidate (m : positive) (e q : Z) : option Z :=
  let s := e - 2 in
  let uv := 4 * Z.pos m in
  let ul :=
    if (Z.pos m =? 2 ^ 52) && (-1074 <? e) then uv - 1 else uv - 2 in
  let uh := uv + 2 in
  let a := 10 ^ Z.max q 0 * 2 ^ Z.max (- s) 0 in
  let b := 10 ^ Z.max (- q) 0 * 2 ^ Z.max s 0 in
  let closed := Z.even (Z.pos m) in
  let d_lo :=
    if closed then (ul * b + a - 1) / a else (ul * b) / a + 1 in
  let d_hi :=
    if closed then (uh * b) / a else (uh * b + a - 1) / a - 1 in
  if d_lo <=? d_hi then Some (Z.max d_lo (Z.min d_hi (nearest (uv * b) a)))
  else None.

Fixpoint shortest (fuel : nat) (m : positive) (e q : Z) : Z * Z :=
  match candidate m e q with
  | Some d => (d, q)
  | None =>
      match fuel with
      | O => (Z.pos m, q)
      | S fuel' => shortest fuel' m e (q - 1)
      end
  end.

(** [repr] of a positive finite number from its digits and the position
    of the decimal point. *)
Definition repr_digits (digits : string) (decpt : Z) : string :=
  let p := Z.of_nat (String.length digits) in
  if (decpt <=? -4) || (16 <? decpt) then
    let mantissa :=
      match digits with
      | String c EmptyString => digits
      | String c rest => String c (String.append "." rest)
      | EmptyString => digits
      end in
    let x := decpt - 1 in
    String.append mantissa
      (String.append (if x <? 0 then "e-" else "e+") (padded 2 (Z.abs x)))
  else if decpt <=? 0 then
    String.append "0." (String.append (zeros (Z.to_nat (- decpt))) digits)
  else if decpt <? p then
    String.append (String.substring 0 (Z.to_nat decpt) digits)
      (String.append "."
         (String.substring (Z.to_nat decpt) (Z.to_nat (p - decpt)) digits))
  else
    String.append digits
      (String.append (zeros (Z.to_nat (decpt - p))) ".0").

(** [str(x)]. *)
Definition str_of_float (x : float) : string :=
  match Prim2SF x with
  | S754_nan => "nan"
  | S754_infinity s => String.append (sign_text s) "inf"
  | S754_zero s => String.append (sign_text s) "0.0"
  | S754_finite s m e =>
      let q0 := (e + 53) * 30103 / 100000 + 2 in
      let '(d, q) := shortest 40 m e q0 in
      let digits := decimal d in
      String.append (sign_text s)
        (repr_digits digits (Z.of_nat (String.length digits) + q))
  end.

Definition month_abbr (m : Z) : string :=
  nth (Z.to_nat (m - 1))
      ["Jan"; "Feb"; "Mar"; "Apr"; "May"; "Jun";
       "Jul"; "Aug"; "Sep"; "Oct"; "Nov"; "Dec"] "".

(** [d.strftime("%b-%Y")]. *)
Definition strftime_b_Y (d : date) : string :=
  String.append (month_abbr (month d))
    (String.append "-" (padded 4 (year d))).

End Demo.

(** ** Sample data *)

Module Samples.
Import Calendar Frame Nav.

(** A row dated at midnight. *)
Definition nav_row (y m d : Z) (v : float) : Row :=
  mkrow (mkts (mkdate y m d) 0) v.

(** The series [(2024-01-31, 100.0), (2024-02-29, 110.0)]. *)
Definition feb_2024_series : DataFrame :=
  [nav_row 2024 1 31 100; nav_row 2024 2 29 110].

(** Two finite prices whose ratio is beyond the binary64 range. *)
Definition overflow_series : DataFrame :=
  [nav_row 2024 1 31 1e-300; nav_row 2024 2 29 1e300].

(** Two rows of 31 January followed by one of 1 February. *)
Definition duplicate_series : DataFrame :=
  [nav_row 2024 1 31 100; nav_row 2024 1 31 101; nav_row 2024 2 1 102].

(** A feed with two malformed records, out of order. *)
Definition raw_feed : list RawRecord :=
  [mkraw "29-02-2024" "110.0"; mkraw "n/a" "105.0";
   mkraw "31-01-2024" "100.0"; mkraw "15-02-2024" "oops"].

(** A feed with a negative value. *)
Definition raw_negative : list RawRecord := [mkraw "31-01-2024" "-5.25"].

(** A feed with an infinite value. *)
Definition raw_infinite : list RawRecord := [mkraw "31-01-2024" "inf"].

(** A feed that spans a turn of the year. *)
Definition raw_rollover : list RawRecord :=
  [mkraw "30-11-2023" "100"; mkraw "29-12-2023" "110";
   mkraw "31-01-2024" "121"].

(** A feed that repeats 31 January. *)
Definition raw_duplicates : list RawRecord :=
  [mkraw "31-01-2024" "100"; mkraw "31-01-2024" "101";
   mkraw "01-02-2024" "102"].

(** Two AMCs in one category; the second has no Regular plan. *)
Definition two_amcs : Runner.Catalog :=
  [("AMC A", [("Equity", [("Direct", Some "101"); ("Regular", Some "102")])]);
   ("AMC B", [("Equity", [("Direct", Some "201"); ("Regular", None)])])]
  %string.

(** One AMC with both plans. *)
Definition one_amc : Runner.Catalog :=
  [("AMC A", [("Equity", [("Direct", Some "101"); ("Regular", Some "102")])])]
  %string.

(** Every request answered with [raw_feed], on 15 March 2024. *)
Definition all_served : Runner.World :=
  Runner.mkworld (fun _ => Demo.serving raw_feed) (fun _ => mkdate 2024 3 15).

(** As [all_served], but the request of task 2 fails. *)
Definition second_fails : Runner.World :=
  Runner.mkworld
    (fun n url => if (n =? 2)%nat then raise ConnectionError
                  else Demo.serving raw_feed url)
    (fun _ => mkdate 2024 3 15).

(** A run that starts on 31 January 2024 and reaches its second task on
    1 February. *)
Definition over_midnight : Runner.World :=
  Runner.mkworld
    (fun _ => Demo.serving raw_rollover)
    (fun n => if (n <=? 1)%nat then mkdate 2024 1 31 else mkdate 2024 2 1).

Definition demo_build_results :=
  Runner.build_results Demo.to_datetime Demo.to_numeric Demo.sort_values.

Definition demo_build_results_once :=
  Spec.build_results_once Demo.to_datetime Demo.to_numeric Demo.sort_values.

Definition demo_plan_result :=
  Runner.plan_result Demo.to_datetime Demo.to_numeric Demo.sort_values.

Definition demo_export :=
  Excel.export_to_excel Demo.str_of_float Demo.format_2f Demo.strftime_b_Y.

Definition demo_run_all :=
  Excel.run_all Demo.to_datetime Demo.to_numeric Demo.sort_values
                Demo.str_of_float Demo.format_2f Demo.strftime_b_Y.

(** A report with a finite, a missing, an infinite and a negative result,
    and a category without rows. *)
Definition mixed_report : Runner.dict (list Runner.ReportRow) :=
  [("Equity"%string,
    [Report.make_row "AMC A" (Runner.VFloat 0.125) Runner.VNone;
     Report.make_row "A long AMC name" (Runner.VFloat infinity)
                     (Runner.VFloat (-0.5))]);
   ("Debt"%string, [])].

End Samples.

(** * Properties of the calendar *)

Module CalendarFacts.
Import Calendar.

Lemma valid_spec d :
  valid d = true <->
  1 <= year d <= 9999 /\ 1 <= month d <= 12 /\
  1 <= day d <= days_in_month (year d) (month d).
Proof.
  unfold valid, MINYEAR, MAXYEAR.
  rewrite !andb_true_iff, !Z.leb_le. lia.
Qed.

Lemma month_cases m :
  1 <= m <= 12 ->
  m = 1 \/ m = 2 \/ m = 3 \/ m = 4 \/ m = 5 \/ m = 6 \/
  m = 7 \/ m = 8 \/ m = 9 \/ m = 10 \/ m = 11 \/ m = 12.
Proof. lia. Qed.

Ltac each_month H :=
  apply month_cases in H;
  repeat (destruct H as [H | H]); subst.

(** Evaluates the month tables and the tests on a month number once the
    month is a numeral, leaving sums over a symbolic day alone. *)
Ltac eval_tables :=
  cbv [DAYS_BEFORE_MONTH DAYS_IN_MONTH Z.ltb Z.eqb Z.compare Pos.compare
       Pos.compare_cont Pos.eqb andb] in *.

Lemma days_in_month_bounds y m :
  1 <= m <= 12 -> 28 <= days_in_month y m <= 31.
Proof.
  intros H. unfold days_in_month.
  each_month H; destruct (is_leap y); simpl; lia.
Qed.

(** The year decomposes over the 400/100/4/1-year cycles. *)
Lemma days_before_year_cycles y :
  1 <= y ->
  exists a b c e,
    y - 1 = 400 * a + 100 * b + 4 * c + e /\
    0 <= a /\ 0 <= b <= 3 /\ 0 <= c <= 24 /\ 0 <= e <= 3 /\
    days_before_year y = DI400Y * a + DI100Y * b + DI4Y * c + 365 * e /\
    is_leap y = (e =? 3) && (negb (c =? 24) || (b =? 3)).
Proof.
  intros Hy.
  exists ((y - 1) / 400), ((y - 1) mod 400 / 100),
         ((y - 1) mod 100 / 4), ((y - 1) mod 4).
  unfold days_before_year, is_leap, DI400Y, DI100Y, DI4Y.
  repeat split; Z.div_mod_to_equations; lia.
Qed.

(** Month and day are recovered from the day of the year: the table
    lookups of [_ord2ymd] are checked on every day of both kinds of
    year. *)
Lemma month_day_check_all :
  forallb (fun leap =>
    forallb (fun m =>
      forallb (month_day_check leap m) (seq 1 31)) (seq 1 12))
    [true; false] = true.
Proof. vm_compute. reflexivity. Qed.

Lemma month_day_of_yday_correct leap m d :
  1 <= m <= 12 ->
  1 <= d <= month_length leap m ->
  month_day_of_yday leap (yday leap m d) = (m, d).
Proof.
  intros Hm Hd.
  assert (Hd31 : d <= 31).
  { unfold month_length in Hd.
    each_month Hm; destruct leap; simpl in Hd; lia. }
  pose proof month_day_check_all as Hall.
  rewrite forallb_forall in Hall.
  assert (Hleap : In leap [true; false]) by (destruct leap; simpl; auto).
  specialize (Hall _ Hleap). rewrite forallb_forall in Hall.
  assert (Hinm : In (Z.to_nat m) (seq 1 12)) by (apply in_seq; lia).
  specialize (Hall _ Hinm). rewrite forallb_forall in Hall.
  assert (Hin : In (Z.to_nat d) (seq 1 31)) by (apply in_seq; lia).
  specialize (Hall _ Hin). unfold month_day_check in Hall.
  rewrite !Z2Nat.id in Hall by lia.
  destruct (Z.leb_spec d (month_length leap m)); [| lia].
  destruct (month_day_of_yday leap (yday leap m d)) as [m' d'].
  apply andb_true_iff in Hall. rewrite !Z.eqb_eq in Hall.
  destruct Hall; congruence.
Qed.

Lemma yday_bounds leap m d :
  1 <= m <= 12 -> 1 <= d <= month_length leap m ->
  0 <= yday leap m d <= 364 + (if leap then 1 else 0).
Proof.
  intros Hm Hd. unfold yday, month_length in *.
  each_month Hm; destruct leap; eval_tables; lia.
Qed.

Lemma yday_last leap m d :
  1 <= m <= 12 -> 1 <= d <= month_length leap m ->
  yday leap m d = 365 -> m = 12 /\ d = 31.
Proof.
  intros Hm Hd. unfold yday, month_length in *.
  each_month Hm; destruct leap; eval_tables; lia.
Qed.

(** [_ord2ymd] on an ordinal given by its position in the cycles. *)
Lemma ord2ymd_cycles a b c e t :
  0 <= b <= 3 -> 0 <= c <= 24 -> 0 <= e <= 3 ->
  0 <= t <= 364 +
            (if (e =? 3) && (negb (c =? 24) || (b =? 3)) then 1 else 0) ->
  ord2ymd (DI400Y * a + DI100Y * b + DI4Y * c + 365 * e + t + 1) =
  let y := 400 * a + 100 * b + 4 * c + e + 1 in
  if t =? 365 then mkdate y 12 31
  else
    let '(m, d) :=
      month_day_of_yday ((e =? 3) && (negb (c =? 24) || (b =? 3))) t in
    mkdate y m d.
Proof.
  intros Hb Hc He Ht. unfold ord2ymd, DI400Y, DI100Y, DI4Y in *.
  cbv zeta.
  assert (Hlast : 0 <= t <= 364 \/ t = 365 /\ e = 3 /\ (c <> 24 \/ b = 3))
    by (destruct ((e =? 3) && _) eqn:E in Ht; lia).
  clear Ht.
  replace (146097 * a + 36524 * b + 1461 * c + 365 * e + t + 1 - 1)
    with (146097 * a + (36524 * b + 1461 * c + 365 * e + t)) by lia.
  set (r1 := 36524 * b + 1461 * c + 365 * e + t).
  assert (Hr1 : 0 <= r1 < 146097) by (subst r1; lia).
  replace ((146097 * a + r1) / 146097) with a
    by (Z.div_mod_to_equations; lia).
  replace ((146097 * a + r1) mod 146097) with r1
    by (Z.div_mod_to_equations; lia).
  destruct (Z.eqb_spec t 365) as [Ht365 | Ht365].
  - (* the last day of a leap year *)
    assert (e = 3 /\ (c <> 24 \/ b = 3)) as [-> Hcb] by lia.
    destruct (Z.eq_dec c 24) as [-> | Hc24].
    + assert (b = 3) by lia. subst b t r1.
      set (k := 36524 * 3 + 1461 * 24 + 365 * 3 + 365).
      replace (k / 36524) with 4 by reflexivity.
      replace (k mod 36524) with 0 by reflexivity.
      replace ((0 mod 1461 / 365 =? 4) || (4 =? 4)) with true by reflexivity.
      f_equal. Z.div_mod_to_equations; lia.
    + replace (r1 / 36524) with b by (subst r1; Z.div_mod_to_equations; lia).
      replace (r1 mod 36524) with (1461 * c + 1460)
        by (subst r1; Z.div_mod_to_equations; lia).
      replace ((1461 * c + 1460) / 1461) with c
        by (Z.div_mod_to_equations; lia).
      replace ((1461 * c + 1460) mod 1461) with 1460
        by (Z.div_mod_to_equations; lia).
      replace ((1460 / 365 =? 4) || (b =? 4)) with true by reflexivity.
      f_equal. Z.div_mod_to_equations; lia.
  - assert (Ht' : 0 <= t <= 364) by lia.
    replace (r1 / 36524) with b by (subst r1; Z.div_mod_to_equations; lia).
    replace (r1 mod 36524) with (1461 * c + (365 * e + t))
      by (subst r1; Z.div_mod_to_equations; lia).
    replace ((1461 * c + (365 * e + t)) / 1461) with c
      by (Z.div_mod_to_equations; lia).
    replace ((1461 * c + (365 * e + t)) mod 1461) with (365 * e + t)
      by (Z.div_mod_to_equations; lia).
    replace ((365 * e + t) / 365) with e by (Z.div_mod_to_equations; lia).
    replace ((365 * e + t) mod 365) with t by (Z.div_mod_to_equations; lia).
    replace ((e =? 4) || (b =? 4)) with false by lia.
    destruct (month_day_of_yday _ t) as [m d]. f_equal. lia.
Qed.

Lemma days_in_month_length y m :
  1 <= m <= 12 -> days_in_month y m = month_length (is_leap y) m.
Proof.
  intros Hm. unfold days_in_month, month_length.
  each_month Hm; destruct (is_leap y); reflexivity.
Qed.

Lemma ymd2ord_yday y m d :
  ymd2ord y m d = days_before_year y + yday (is_leap y) m d + 1.
Proof. unfold ymd2ord, days_before_month, yday. lia. Qed.

(** [date.fromordinal(d.toordinal()) == d] *)
Theorem fromordinal_toordinal d :
  valid d = true -> fromordinal (toordinal d) = d.
Proof.
  rewrite valid_spec. destruct d as [y m dd]; simpl.
  intros (Hy & Hm & Hd).
  unfold fromordinal, toordinal; simpl.
  rewrite days_in_month_length in Hd by assumption.
  destruct (days_before_year_cycles y) as
    (a & b & c & e & Hy1 & Ha & Hb & Hc & He & Hdby & Hleap); [lia |].
  pose proof (yday_bounds _ _ _ Hm Hd) as Ht.
  pose proof (yday_last _ _ _ Hm Hd) as Hl.
  pose proof (month_day_of_yday_correct _ _ _ Hm Hd) as Hmd.
  rewrite ymd2ord_yday, Hdby.
  rewrite Hleap in *.
  rewrite ord2ymd_cycles by assumption. cbv zeta.
  replace (400 * a + 100 * b + 4 * c + e + 1) with y by lia.
  destruct (Z.eqb_spec (yday ((e =? 3) && (negb (c =? 24) || (b =? 3))) m dd)
              365) as [E | E].
  - destruct (Hl E) as [-> ->]. reflexivity.
  - rewrite Hmd. reflexivity.
Qed.

Lemma days_before_year_succ y :
  1 <= y ->
  days_before_year (y + 1) =
  days_before_year y + 365 + (if is_leap y then 1 else 0).
Proof.
  intros Hy. unfold days_before_year, is_leap.
  replace (y + 1 - 1) with y by lia.
  destruct ((y mod 4 =? 0) && _) eqn:E;
    Z.div_mod_to_equations; lia.
Qed.

Lemma days_before_year_mono y1 y2 :
  1 <= y1 <= y2 -> days_before_year y1 <= days_before_year y2.
Proof.
  intros H. unfold days_before_year.
  Z.div_mod_to_equations; lia.
Qed.

Lemma days_before_year_nonneg y : 1 <= y -> 0 <= days_before_year y.
Proof.
  intros H. unfold days_before_year. Z.div_mod_to_equations; lia.
Qed.

Lemma yday_month_mono leap m1 d1 m2 d2 :
  1 <= m1 <= 12 -> 1 <= m2 <= 12 ->
  1 <= d1 <= month_length leap m1 -> 1 <= d2 ->
  m1 < m2 -> yday leap m1 d1 < yday leap m2 d2.
Proof.
  intros H1 H2 Hd1 Hd2 Hlt. unfold yday, month_length in *.
  each_month H1; each_month H2; try lia;
    destruct leap; eval_tables; lia.
Qed.

Lemma toordinal_yday d :
  toordinal d =
  days_before_year (year d) + yday (is_leap (year d)) (month d) (day d) + 1.
Proof. unfold toordinal. apply ymd2ord_yday. Qed.

(** The ordinal is strictly monotone for the tuple order on dates. *)
Theorem toordinal_lt a b :
  valid a = true -> valid b = true ->
  cmp a b = Lt -> toordinal a < toordinal b.
Proof.
  rewrite !valid_spec. intros (Hya & Hma & Hda) (Hyb & Hmb & Hdb) Hc.
  rewrite days_in_month_length in Hda, Hdb by assumption.
  rewrite !toordinal_yday.
  pose proof (yday_bounds _ _ _ Hma Hda) as Ba.
  pose proof (yday_bounds _ _ _ Hmb Hdb) as Bb.
  unfold cmp in Hc.
  destruct (Z.compare_spec (year a) (year b)) as [Ey | Ly | Gy];
    try discriminate.
  - rewrite Ey in *.
    destruct (Z.compare_spec (month a) (month b)) as [Em | Lm | Gm];
      try discriminate.
    + rewrite Em. change (day a < day b) in Hc. unfold yday.
      destruct ((2 <? month b) && _); lia.
    + pose proof (yday_month_mono (is_leap (year b)) _ (day a) _ (day b)
                    Hma Hmb Hda (proj1 Hdb) Lm). lia.
  - pose proof (days_before_year_succ (year a) (proj1 Hya)) as Hs.
    pose proof (days_before_year_mono (year a + 1) (year b)) as Hm.
    destruct (is_leap (year a)); lia.
Qed.

Lemma cmp_eq a b : cmp a b = Eq -> a = b.
Proof.
  destruct a, b; unfold cmp; simpl.
  destruct (Z.compare_spec year0 year1); try discriminate.
  destruct (Z.compare_spec month0 month1); try discriminate.
  intros Hd%Z.compare_eq. congruence.
Qed.

Lemma cmp_lt_spec a b :
  cmp a b = Lt <->
  year a < year b \/
  year a = year b /\
    (month a < month b \/ month a = month b /\ day a < day b).
Proof.
  unfold cmp.
  destruct (Z.compare_spec (year a) (year b));
    destruct (Z.compare_spec (month a) (month b));
    destruct (Z.compare_spec (day a) (day b));
    split; intros; try discriminate; try reflexivity; lia.
Qed.

Lemma cmp_gt_spec a b : cmp a b = Gt <-> cmp b a = Lt.
Proof.
  rewrite cmp_lt_spec. unfold cmp.
  destruct (Z.compare_spec (year a) (year b));
    destruct (Z.compare_spec (month a) (month b));
    destruct (Z.compare_spec (day a) (day b));
    split; intros; try discriminate; try reflexivity; lia.
Qed.

Lemma ltb_lt a b : ltb a b = true <-> cmp a b = Lt.
Proof. unfold ltb. destruct (cmp a b); split; congruence. Qed.

Lemma leb_spec a b : leb a b = true <-> cmp a b = Lt \/ a = b.
Proof.
  unfold leb. destruct (cmp a b) eqn:E; split; intros H; auto.
  - right. now apply cmp_eq.
  - discriminate.
  - destruct H as [H | H]; [discriminate |].
    subst. apply cmp_gt_spec in E. rewrite cmp_lt_spec in E. lia.
Qed.

Lemma leb_refl a : leb a a = true.
Proof. apply leb_spec. now right. Qed.

Lemma cmp_lt_trans a b c : cmp a b = Lt -> cmp b c = Lt -> cmp a c = Lt.
Proof. rewrite !cmp_lt_spec. lia. Qed.

Lemma leb_trans a b c : leb a b = true -> leb b c = true -> leb a c = true.
Proof.
  rewrite !leb_spec. intros [H1 | ->] [H2 | ->]; auto.
  left. eapply cmp_lt_trans; eassumption.
Qed.

(** Days elapsed between two valid dates: positive exactly when the
    later date is later in the tuple order. *)
Theorem days_between_pos a b :
  valid a = true -> valid b = true ->
  (0 <? days_between b a) = true <-> ltb a b = true.
Proof.
  intros Va Vb. rewrite Z.ltb_lt, ltb_lt. unfold days_between. split.
  - intros H. destruct (cmp a b) eqn:E; auto.
    + apply cmp_eq in E. subst. lia.
    + apply cmp_gt_spec in E. pose proof (toordinal_lt _ _ Vb Va E). lia.
  - intros H. pose proof (toordinal_lt _ _ Va Vb H). lia.
Qed.

Lemma toordinal_bounds d :
  valid d = true -> 1 <= toordinal d <= MAXORDINAL.
Proof.
  intros V. pose proof V as V'. rewrite valid_spec in V'.
  destruct V' as (Hy & Hm & Hd).
  rewrite days_in_month_length in Hd by assumption.
  pose proof (yday_bounds _ _ _ Hm Hd) as B.
  rewrite toordinal_yday.
  pose proof (days_before_year_nonneg (year d) (proj1 Hy)).
  pose proof (days_before_year_succ (year d) (proj1 Hy)) as Hs.
  pose proof (days_before_year_mono (year d + 1) 10000) as Hmono.
  change (days_before_year 10000) with MAXORDINAL in Hmono.
  destruct (is_leap (year d)); lia.
Qed.

Lemma last_day_of_valid y m :
  1 <= y <= 9999 -> 1 <= m <= 12 -> valid (last_day_of (y, m)) = true.
Proof.
  intros Hy Hm. apply valid_spec. unfold last_day_of; simpl.
  pose proof (days_in_month_bounds y m Hm). lia.
Qed.

Lemma prev_month_range y m :
  1 <= y <= 9999 -> 1 <= m <= 12 -> 1 < y \/ 1 < m ->
  1 <= fst (prev_month y m) <= 9999 /\ 1 <= snd (prev_month y m) <= 12.
Proof.
  intros Hy Hm Hne. unfold prev_month.
  destruct (Z.eqb_spec m 1); simpl; lia.
Qed.

(** The day before the first of a month is the last day of the month
    before, also across the turn of the year. *)
Lemma toordinal_first_of_month y m :
  1 <= y <= 9999 -> 1 <= m <= 12 -> 1 < y \/ 1 < m ->
  toordinal (mkdate y m 1) - 1 = toordinal (last_day_of (prev_month y m)).
Proof.
  intros Hy Hm Hne. unfold toordinal, last_day_of, prev_month, ymd2ord; simpl.
  destruct (Z.eqb_spec m 1) as [-> | Hm1]; simpl.
  - pose proof (days_before_year_succ (y - 1)) as Hs.
    replace (y - 1 + 1) with y in Hs by lia.
    unfold days_before_month, days_in_month.
    destruct (is_leap (y - 1)); eval_tables; lia.
  - unfold days_before_month, days_in_month.
    each_month Hm; try lia;
      repeat match goal with
             | |- context [ Z.pos ?p - 1 ] =>
                 let v := eval vm_compute in (Z.pos p - 1) in
                 change (Z.pos p - 1) with v
             end;
      destruct (is_leap y); eval_tables; lia.
Qed.

Theorem sub_days_first_of_month y m :
  1 <= y <= 9999 -> 1 <= m <= 12 -> 1 < y \/ 1 < m ->
  sub_days (mkdate y m 1) 1 = ret (last_day_of (prev_month y m)).
Proof.
  intros Hy Hm Hne. unfold sub_days.
  rewrite toordinal_first_of_month by assumption.
  destruct (prev_month_range y m Hy Hm Hne) as [Hy' Hm'].
  pose proof (last_day_of_valid _ _ Hy' Hm') as V.
  rewrite <- surjective_pairing in V.
  pose proof (toordinal_bounds _ V) as B.
  replace ((0 <? _) && _) with true by lia.
  unfold ret. f_equal. now apply fromordinal_toordinal.
Qed.

Lemma replace_day_first d :
  valid d = true -> replace_day d 1 = ret (mkdate (year d) (month d) 1).
Proof.
  intros V. unfold replace_day.
  replace (valid _) with true; [reflexivity |].
  symmetry. apply valid_spec. apply valid_spec in V. simpl.
  pose proof (days_in_month_bounds (year d) (month d)). lia.
Qed.

End CalendarFacts.

(** * Properties of the table operations *)

Module FrameFacts.
Import Calendar Frame CalendarFacts.

Lemma ts_leb_spec a b :
  ts_leb a b = true <->
  cmp (ts_date a) (ts_date b) = Lt \/
  ts_date a = ts_date b /\ ts_nanos a <= ts_nanos b.
Proof.
  unfold ts_leb. destruct (cmp (ts_date a) (ts_date b)) eqn:E.
  - rewrite Z.leb_le. pose proof (cmp_eq _ _ E) as Ed. split; [auto |].
    intros [H | [_ H]]; [congruence | exact H].
  - split; auto.
  - split; [discriminate |]. intros [H | [H _]]; [discriminate |].
    rewrite H in E. apply cmp_gt_spec in E. rewrite cmp_lt_spec in E. lia.
Qed.

Lemma ts_leb_date a b :
  ts_leb a b = true -> leb (ts_date a) (ts_date b) = true.
Proof.
  rewrite ts_leb_spec, leb_spec. intros [H | [H _]]; auto.
Qed.

Lemma ts_leb_trans a b c :
  ts_leb a b = true -> ts_leb b c = true -> ts_leb a c = true.
Proof.
  rewrite !ts_leb_spec.
  intros [H1 | [E1 N1]] [H2 | [E2 N2]].
  - left. eapply cmp_lt_trans; eassumption.
  - left. now rewrite <- E2.
  - left. now rewrite E1.
  - right. split; [congruence | lia].
Qed.

Lemma row_le_trans : forall a b c, row_le a b -> row_le b c -> row_le a c.
Proof. unfold row_le. intros a b c. apply ts_leb_trans. Qed.

Lemma Sorted_StronglySorted_rows df :
  Sorted row_le df -> StronglySorted row_le df.
Proof. apply Sorted_StronglySorted. exact row_le_trans. Qed.

Lemma StronglySorted_filter (f : Row -> bool) df :
  StronglySorted row_le df -> StronglySorted row_le (filter f df).
Proof.
  induction 1 as [| x l Hl IH Hx]; simpl; [constructor |].
  destruct (f x); [| exact IH].
  constructor; [exact IH |].
  rewrite Forall_forall in *. intros y Hy.
  apply filter_In in Hy. apply Hx, Hy.
Qed.

Lemma StronglySorted_app_last l (x : Row) :
  StronglySorted row_le (l ++ [x]) -> Forall (fun y => row_le y x) l.
Proof.
  induction l as [| a l IH]; simpl; intros H; [constructor |].
  inversion H as [| ? ? Hl Ha]; subst.
  constructor; [| now apply IH].
  rewrite Forall_forall in Ha. apply Ha, in_or_app. right. now left.
Qed.

Lemma iloc_last_app {A} (l : list A) x : iloc_last (l ++ [x]) = Some x.
Proof.
  induction l as [| a l IH]; [reflexivity |].
  simpl. destruct (l ++ [x]) eqn:E; [| exact IH].
  destruct l; discriminate.
Qed.

Lemma iloc_last_None {A} (l : list A) : iloc_last l = None <-> l = [].
Proof.
  split; [| intros ->; reflexivity].
  destruct l as [| a l] using rev_ind; [reflexivity |].
  rewrite iloc_last_app. discriminate.
Qed.

Lemma iloc_last_Some {A} (l : list A) x :
  iloc_last l = Some x <-> exists l', l = l' ++ [x].
Proof.
  split.
  - destruct l as [| a l _] using rev_ind; [discriminate |].
    rewrite iloc_last_app. intros [= ->]. now exists l.
  - intros [l' ->]. apply iloc_last_app.
Qed.

Lemma dropna_In rows r :
  In r (dropna rows) <->
  exists p, In p rows /\ p_date p = Some (row_date r) /\
            p_nav p = row_nav r /\ is_nan (p_nav p) = false.
Proof.
  unfold dropna. rewrite in_flat_map. split.
  - intros (p & Hp & Hr). exists p. split; [exact Hp |].
    destruct (p_date p) as [t |]; [| contradiction].
    destruct (is_nan (p_nav p)) eqn:E; [contradiction |].
    destruct Hr as [<- | []]. simpl. auto.
  - intros (p & Hp & Hd & Hn & Hnan). exists p. split; [exact Hp |].
    rewrite Hd, Hnan. left. destruct r; simpl in *. now subst.
Qed.

Lemma nth_error_combine {A B} (l1 : list A) (l2 : list B) i :
  nth_error (combine l1 l2) i =
  match nth_error l1 i, nth_error l2 i with
  | Some a, Some b => Some (a, b)
  | _, _ => None
  end.
Proof.
  revert l2 i. induction l1 as [| a l1 IH]; intros l2 i.
  - destruct i; reflexivity.
  - destruct l2 as [| b l2].
    + destruct i as [| i]; simpl; [reflexivity |].
      now destruct (nth_error l1 i).
    + destruct i as [| i]; simpl; [reflexivity | apply IH].
Qed.

Lemma map_snd_combine {A B} (l1 : list A) (l2 : list B) :
  List.length l1 = List.length l2 -> map snd (combine l1 l2) = l2.
Proof.
  revert l2. induction l1 as [| a l1 IH]; intros [| b l2] H;
    try reflexivity; try discriminate.
  simpl. f_equal. apply IH. now injection H.
Qed.

Lemma filter_map_swap {A B} (f : A -> B) (g : B -> bool) l :
  filter g (map f l) = map f (filter (fun x => g (f x)) l).
Proof.
  induction l as [| x l IH]; simpl; [reflexivity |].
  destruct (g (f x)); simpl; now rewrite IH.
Qed.

End FrameFacts.

(** * Properties of the NAV functions *)

Module NavFacts.
Import Calendar Frame Nav CalendarFacts FrameFacts.

Lemma last_nav_on_or_before_None df d :
  last_nav_on_or_before df d = None <->
  forall r, In r df -> on_or_before d r = false.
Proof.
  unfold last_nav_on_or_before. fold (on_or_before d).
  destruct (iloc_last (filter (on_or_before d) df)) as [row |] eqn:E.
  - split; [discriminate |]. intros H.
    apply iloc_last_Some in E. destruct E as [l' E].
    assert (Hin : In row (filter (on_or_before d) df))
      by (rewrite E; apply in_or_app; right; now left).
    apply filter_In in Hin. destruct Hin as [Hin Hle].
    rewrite (H _ Hin) in Hle. discriminate.
  - split; [| reflexivity]. intros _ r Hin.
    apply iloc_last_None in E.
    destruct (on_or_before d r) eqn:Hle; [| reflexivity].
    assert (Hf : In r (filter (on_or_before d) df))
      by (apply filter_In; auto).
    rewrite E in Hf. contradiction.
Qed.

Lemma last_nav_on_or_before_Some df d o :
  StronglySorted row_le df ->
  last_nav_on_or_before df d = Some o ->
  exists row,
    o = observation row /\ In row df /\ on_or_before d row = true /\
    forall r, In r df -> on_or_before d r = true -> row_le r row.
Proof.
  intros Hs. unfold last_nav_on_or_before. fold (on_or_before d).
  destruct (iloc_last (filter (on_or_before d) df)) as [row |] eqn:E;
    [| discriminate].
  intros [= <-]. exists row. split; [reflexivity |].
  apply iloc_last_Some in E. destruct E as [l' E].
  assert (Hin : In row (filter (on_or_before d) df))
    by (rewrite E; apply in_or_app; right; now left).
  apply filter_In in Hin. destruct Hin as [Hin Hle].
  repeat split; try assumption.
  intros r Hr Hrd.
  assert (Hf : In r (filter (on_or_before d) df)) by (apply filter_In; auto).
  pose proof (StronglySorted_filter (on_or_before d) _ Hs) as Hsf.
  rewrite E in Hsf, Hf. apply StronglySorted_app_last in Hsf.
  apply in_app_or in Hf. destruct Hf as [Hf | [<- | []]].
  - rewrite Forall_forall in Hsf. now apply Hsf.
  - unfold row_le. apply ts_leb_spec. right. split; [reflexivity | lia].
Qed.



Lemma end_of_previous_month_eq d :
  valid d = true -> MINYEAR < year d \/ 1 < month d ->
  end_of_previous_month d = ret (last_day_of (prev_month (year d) (month d))).
Proof.
  intros V H. unfold end_of_previous_month, MINYEAR in *.
  rewrite replace_day_first by assumption. simpl.
  apply valid_spec in V. apply sub_days_first_of_month; lia.
Qed.

Lemma prev_month_before y m d :
  1 <= m <= 12 ->
  ltb (last_day_of (prev_month y m)) (mkdate y m d) = true.
Proof.
  intros Hm. apply ltb_lt, cmp_lt_spec. unfold last_day_of, prev_month.
  destruct (Z.eqb_spec m 1); simpl; lia.
Qed.

Lemma prev_month_later y m :
  1 <= m <= 12 -> 1 < y ->
  MINYEAR < fst (prev_month y m) \/ 1 < snd (prev_month y m).
Proof.
  intros Hm Hy. unfold prev_month, MINYEAR.
  destruct (Z.eqb_spec m 1); simpl; lia.
Qed.

(** The two dates the code computes are the ones section 4.2 names. *)
Lemma reference_window_spec today :
  valid today = true -> MINYEAR < year today ->
  reference_window today = ret (Spec.reference_window today).
Proof.
  intros V Hy.
  pose proof V as V'. apply valid_spec in V'. destruct V' as (Hy' & Hm & Hd).
  set (e := last_day_of (prev_month (year today) (month today))).
  assert (He : end_of_previous_month today = ret e)
    by (apply end_of_previous_month_eq; auto).
  assert (Hy1 : 1 < year today) by exact Hy.
  destruct (prev_month_range (year today) (month today)) as [Hye Hme];
    [lia | lia | lia |].
  assert (Ve : valid e = true)
    by (unfold e; rewrite (surjective_pairing (prev_month _ _));
        now apply last_day_of_valid).
  assert (Hlater : MINYEAR < year e \/ 1 < month e)
    by (apply prev_month_later; unfold MINYEAR in *; lia).
  unfold reference_window. rewrite He. simpl.
  rewrite (end_of_previous_month_eq e Ve Hlater). reflexivity.
Qed.

(** C6: the reference window of a current date: [end_date] is the last
    day of the month before the current month, [start_date] the last day of
    the month before [end_date]'s month, [start_date < end_date], and both
    lie strictly before the current date, whatever the month (January and
    February included).  The current date is any date after year 1, the
    first year of the calendar, where no earlier month exists. *)
Theorem reference_window_correct (today : date) :
  valid today = true -> MINYEAR < year today ->
  exists start_date end_date,
    reference_window today = ret (start_date, end_date) /\
    end_date = last_day_of (prev_month (year today) (month today)) /\
    start_date = last_day_of (prev_month (year end_date) (month end_date)) /\
    ltb start_date end_date = true /\
    ltb end_date today = true /\
    ltb start_date today = true.
Proof.
  intros V Hy.
  pose proof V as V'. apply valid_spec in V'. destruct V' as (Hy' & Hm & Hd).
  assert (Hy1 : 1 < year today) by exact Hy.
  destruct (prev_month_range (year today) (month today)) as [Hye Hme];
    [lia | lia | lia |].
  set (e := last_day_of (prev_month (year today) (month today))).
  set (s := last_day_of (prev_month (year e) (month e))).
  assert (Hse : ltb s e = true).
  { unfold s. replace e with (mkdate (year e) (month e) (day e)) at 3
      by (now destruct e).
    apply prev_month_before. exact Hme. }
  assert (Het : ltb e today = true).
  { unfold e. replace today with (mkdate (year today) (month today) (day today))
      at 3 by (now destruct today).
    apply prev_month_before. exact Hm. }
  exists s, e.
  split; [now rewrite reference_window_spec |].
  repeat split; try assumption.
  apply ltb_lt. apply ltb_lt in Hse, Het. eapply cmp_lt_trans; eassumption.
Qed.

Lemma reference_window_correct_witness :
  reference_window (mkdate 2025 1 15)
  = ret (mkdate 2024 11 30, mkdate 2024 12 31).
Proof.
  destruct (reference_window_correct (mkdate 2025 1 15))
    as (s & e & Hw & He & Hs & _); [reflexivity | reflexivity |].
  rewrite Hw, Hs, He. reflexivity.
Defined.

(** The rest of [monthly_rolling_return] once the two dates are known. *)
Lemma monthly_rolling_return_window today df s e :
  reference_window today = ret (s, e) ->
  monthly_rolling_return today df =
  match last_nav_on_or_before df s, last_nav_on_or_before df e with
  | Some t0, Some t1 =>
      if (days_between (obs_date t1) (obs_date t0) <=? 0)
         || (obs_nav t0 =? 0)%float
      then ret None
      else ret (Some (((obs_nav t1 - obs_nav t0) / obs_nav t0)
                      * (365 / float_of_int
                                 (days_between (obs_date t1) (obs_date t0))))
                     %float)
  | _, _ => ret None
  end.
Proof.
  unfold reference_window, monthly_rolling_return.
  destruct (end_of_previous_month today) as [x | e']; simpl; [discriminate |].
  destruct (end_of_previous_month e') as [x | s']; simpl; [discriminate |].
  intros [= -> ->].
  destruct (last_nav_on_or_before df s), (last_nav_on_or_before df e);
    reflexivity.
Qed.

Lemma last_nav_on_or_before_In df d o :
  last_nav_on_or_before df d = Some o ->
  exists row, In row df /\ o = observation row.
Proof.
  unfold last_nav_on_or_before.
  destruct (iloc_last _) as [row |] eqn:E; [| discriminate].
  intros [= <-]. exists row. split; [| reflexivity].
  apply iloc_last_Some in E. destruct E as [l' E].
  assert (Hin : In row (l' ++ [row])) by (apply in_or_app; right; now left).
  rewrite <- E in Hin. now apply filter_In in Hin.
Qed.

(** C2: when both as-of lookups succeed, the later observation is dated
    after the earlier one and the earlier price is not zero, the result is
    [((t1.price - t0.price) / t0.price) * (365.0 / days)] with [days] the
    whole days elapsed between the two observations; on the series
    [(2024-01-31, 100.0), (2024-02-29, 110.0)] with the window
    [2024-01-31 .. 2024-02-29], [days = 29] and the result is
    [(10/100) * (365/29)], about 1.2586. *)
Theorem monthly_rolling_return_formula :
  (forall today df start_date end_date t0 t1,
     Forall (fun r => valid (ts_date (row_date r)) = true) df ->
     reference_window today = ret (start_date, end_date) ->
     last_nav_on_or_before df start_date = Some t0 ->
     last_nav_on_or_before df end_date = Some t1 ->
     ltb (obs_date t0) (obs_date t1) = true ->
     (obs_nav t0 =? 0)%float = false ->
     let days := days_between (obs_date t1) (obs_date t0) in
     0 < days /\
     monthly_rolling_return today df =
     ret (Some (((obs_nav t1 - obs_nav t0) / obs_nav t0)
                * (365 / float_of_int days))%float))
  /\
  (reference_window (mkdate 2024 3 15)
   = ret (mkdate 2024 1 31, mkdate 2024 2 29) /\
   days_between (mkdate 2024 2 29) (mkdate 2024 1 31) = 29 /\
   exists rr,
     monthly_rolling_return (mkdate 2024 3 15) Samples.feb_2024_series
     = ret (Some rr) /\
     rr = ((10 / 100) * (365 / 29))%float /\
     (1.2586 <=? rr)%float = true /\ (rr <=? 1.2587)%float = true).
Proof.
  split.
  - intros today df s e t0 t1 Hv Hw H0 H1 Hlt Hnz days.
    destruct (last_nav_on_or_before_In _ _ _ H0) as (r0 & Hr0 & E0).
    destruct (last_nav_on_or_before_In _ _ _ H1) as (r1 & Hr1 & E1).
    rewrite Forall_forall in Hv.
    assert (Hdays : 0 < days).
    { apply Z.ltb_lt. subst days t0 t1. simpl.
      apply days_between_pos; auto. }
    split; [exact Hdays |].
    rewrite (monthly_rolling_return_window _ _ _ _ Hw), H0, H1.
    fold days. rewrite Hnz.
    replace (days <=? 0) with false by lia. reflexivity.
  - split; [reflexivity |]. split; [reflexivity |].
    eexists. split; [vm_compute; reflexivity |].
    split; [vm_compute; reflexivity |].
    split; vm_compute; reflexivity.
Qed.

Lemma monthly_rolling_return_formula_witness :
  0 < 29 /\
  monthly_rolling_return (mkdate 2024 3 15) Samples.feb_2024_series =
  ret (Some (((110 - 100) / 100) * (365 / float_of_int 29))%float).
Proof.
  apply (proj1 monthly_rolling_return_formula
           (mkdate 2024 3 15) Samples.feb_2024_series
           (mkdate 2024 1 31) (mkdate 2024 2 29)
           (mkobs (mkdate 2024 1 31) 100) (mkobs (mkdate 2024 2 29) 110)).
  - repeat constructor.
  - reflexivity.
  - reflexivity.
  - reflexivity.
  - reflexivity.
  - reflexivity.
Defined.

(** C3, as the code has it: for every frame the computation returns
    without an exception, and the result is the unavailable marker exactly
    when one of the two lookups is absent, the days elapsed between the
    two observations are [<= 0], or the earlier price equals 0.  (A
    returned number is a binary64 value; it need not be finite.) *)
Theorem monthly_rolling_return_unavailable (today : date) (df : DataFrame) :
  valid today = true -> MINYEAR < year today ->
  exists start_date end_date result,
    reference_window today = ret (start_date, end_date) /\
    monthly_rolling_return today df = ret result /\
    (result = None <->
     last_nav_on_or_before df start_date = None \/
     last_nav_on_or_before df end_date = None \/
     exists t0 t1,
       last_nav_on_or_before df start_date = Some t0 /\
       last_nav_on_or_before df end_date = Some t1 /\
       (days_between (obs_date t1) (obs_date t0) <= 0 \/
        (obs_nav t0 =? 0)%float = true)).
Proof.
  intros V Hy.
  pose proof (reference_window_spec today V Hy) as Hw.
  destruct (Spec.reference_window today) as [s e].
  exists s, e.
  rewrite (monthly_rolling_return_window _ _ _ _ Hw).
  destruct (last_nav_on_or_before df s) as [t0 |] eqn:E0.
  2: { exists None. repeat split; auto. }
  destruct (last_nav_on_or_before df e) as [t1 |] eqn:E1.
  2: { exists None. repeat split; auto. }
  destruct ((days_between (obs_date t1) (obs_date t0) <=? 0)
            || (obs_nav t0 =? 0)%float) eqn:G.
  - exists None. repeat split; auto. intros _. right. right.
    exists t0, t1. repeat split; auto.
    apply orb_true_iff in G. rewrite Z.leb_le in G. exact G.
  - eexists. split; [exact Hw |]. split; [reflexivity |].
    split; [discriminate |].
    apply orb_false_iff in G. destruct G as [Gd Gz]. apply Z.leb_gt in Gd.
    intros [H | [H | (a & b & [= <-] & [= <-] & [H | H])]];
      try discriminate; [lia | congruence].
Qed.

Lemma monthly_rolling_return_unavailable_witness :
  exists result,
    monthly_rolling_return (mkdate 2024 3 15) Samples.feb_2024_series
    = ret result.
Proof.
  destruct (monthly_rolling_return_unavailable
              (mkdate 2024 3 15) Samples.feb_2024_series)
    as (s & e & r & _ & Hr & _); [reflexivity | reflexivity |].
  exists r. exact Hr.
Defined.

(** C3, as stated, fails: two finite prices give an infinite result. *)
Lemma monthly_rolling_return_not_finite :
  exists rr,
    monthly_rolling_return (mkdate 2024 3 15) Samples.overflow_series
    = ret (Some rr) /\
    is_finite rr = false /\ is_infinity rr = true.
Proof.
  eexists. split; [vm_compute; reflexivity |].
  split; vm_compute; reflexivity.
Qed.

End NavFacts.

(** * The concrete sort meets the contract of [sort_values] *)

Module DemoFacts.
Import Calendar Frame Nav CalendarFacts FrameFacts.

Lemma ts_leb_total a b : ts_leb a b = false -> ts_leb b a = true.
Proof.
  intros H. apply ts_leb_spec. unfold ts_leb in H.
  destruct (cmp (ts_date a) (ts_date b)) eqn:E; try discriminate.
  - right. apply cmp_eq in E. apply Z.leb_gt in H. split; [auto | lia].
  - left. now apply cmp_gt_spec.
Qed.

Lemma insert_row_perm r df : Permutation (r :: df) (Demo.insert_row r df).
Proof.
  induction df as [| x df IH]; simpl; [reflexivity |].
  destruct (ts_leb (row_date r) (row_date x)); [reflexivity |].
  rewrite perm_swap. now apply perm_skip.
Qed.

Lemma insert_row_sorted r df :
  Sorted row_le df -> Sorted row_le (Demo.insert_row r df).
Proof.
  induction 1 as [| x df Hs IH Hx]; simpl; [repeat constructor |].
  destruct (ts_leb (row_date r) (row_date x)) eqn:E.
  - constructor; [now constructor |]. now constructor.
  - constructor; [exact IH |].
    destruct df as [| y df]; simpl.
    + constructor. now apply ts_leb_total.
    + destruct (ts_leb (row_date r) (row_date y)).
      * constructor. now apply ts_leb_total.
      * constructor. now inversion Hx.
Qed.

Lemma sort_values_sorted df : Sorted row_le (Demo.sort_values df).
Proof.
  induction df as [| r df IH]; simpl; [constructor |].
  now apply insert_row_sorted.
Qed.

Lemma sort_values_perm df : Permutation df (Demo.sort_values df).
Proof.
  induction df as [| r df IH]; simpl; [constructor |].
  rewrite <- insert_row_perm. now apply perm_skip.
Qed.

Lemma to_datetime_length col :
  List.length (Demo.to_datetime col) = List.length col.
Proof. apply length_map. Qed.

End DemoFacts.

(** * Properties of the constructed series *)

Module SeriesFacts.
Import Calendar Frame Nav CalendarFacts FrameFacts NavFacts.

Lemma eqb_eq a b : eqb a b = true <-> a = b.
Proof.
  unfold eqb. destruct (cmp a b) eqn:E; split; try discriminate; auto.
  - intros _. now apply cmp_eq.
  - intros ->. rewrite cmp_lt_spec in E. lia.
  - intros ->. apply cmp_gt_spec in E. rewrite cmp_lt_spec in E. lia.
Qed.

Lemma leb_antisym a b : leb a b = true -> leb b a = true -> a = b.
Proof.
  rewrite !leb_spec, !cmp_lt_spec. intros [H1 | H1] [H2 | H2]; auto.
  destruct a, b; simpl in *. exfalso. lia.
Qed.

Lemma iloc_last_cons {A} (x : A) l : l <> [] -> iloc_last (x :: l) = iloc_last l.
Proof. destruct l; [contradiction | reflexivity]. Qed.

Lemma iloc_last_filter_cons {A} (f : A -> bool) x l :
  filter f l <> [] -> iloc_last (filter f (x :: l)) = iloc_last (filter f l).
Proof.
  intros H. simpl. destruct (f x); [| reflexivity]. now apply iloc_last_cons.
Qed.

(** In a frame sorted by date, the last row dated on or before [d] is the
    last row dated [d], provided some row is dated [d]. *)
Lemma iloc_last_on_date df d :
  StronglySorted row_le df ->
  (exists r, In r df /\ ts_date (row_date r) = d) ->
  iloc_last (filter (on_or_before d) df) = last_with_date d df /\
  last_with_date d df <> None.
Proof.
  unfold last_with_date.
  set (is_d := fun r : Row => eqb (ts_date (row_date r)) d).
  induction 1 as [| x l Hl IH Hx]; intros (r & Hin & Hr); [contradiction |].
  destruct (filter is_d l) as [| y l'] eqn:Ed.
  - (* no later row is dated [d]: the row is [x] itself *)
    assert (Hnone : forall z, In z l -> is_d z = false).
    { intros z Hz. destruct (is_d z) eqn:Ez; [| reflexivity].
      assert (In z (filter is_d l)) by (apply filter_In; auto).
      rewrite Ed in *. contradiction. }
    destruct Hin as [<- | Hin].
    2: { specialize (Hnone _ Hin). unfold is_d in Hnone.
         rewrite (proj2 (eqb_eq _ _) Hr) in Hnone. discriminate. }
    assert (Hle : filter (on_or_before d) l = []).
    { destruct (filter (on_or_before d) l) as [| z l''] eqn:El;
        [reflexivity |].
      assert (Hz : In z (filter (on_or_before d) l))
        by (rewrite El; now left).
      apply filter_In in Hz. destruct Hz as [Hz Hzd].
      rewrite Forall_forall in Hx. pose proof (Hx _ Hz) as Hxz.
      apply ts_leb_date in Hxz. rewrite Hr in Hxz. unfold on_or_before in Hzd.
      pose proof (leb_antisym _ _ Hzd Hxz) as Heq.
      specialize (Hnone _ Hz). unfold is_d in Hnone.
      rewrite (proj2 (eqb_eq _ _) Heq) in Hnone. discriminate. }
    simpl. rewrite Hle, Ed. unfold on_or_before, is_d.
    rewrite Hr, leb_refl, (proj2 (eqb_eq d d) eq_refl).
    split; [reflexivity | discriminate].
  - assert (Hy : In y (filter is_d l)) by (rewrite Ed; now left).
    apply filter_In in Hy. destruct Hy as [Hy Hyd].
    unfold is_d in Hyd. apply eqb_eq in Hyd.
    destruct IH as [IH1 IH2]; [now exists y |].
    assert (Hne : filter (on_or_before d) l <> []).
    { intros E. rewrite E in IH1. apply IH2. symmetry. exact IH1. }
    rewrite iloc_last_filter_cons by assumption.
    rewrite iloc_last_filter_cons by (rewrite Ed; discriminate).
    rewrite Ed. split; assumption.
Qed.

Lemma lookup_last_with_date df d t :
  Sorted row_le df ->
  leb d t = true ->
  (exists r, In r df /\ ts_date (row_date r) = d) ->
  (forall r, In r df -> leb (ts_date (row_date r)) t = true ->
             leb (ts_date (row_date r)) d = true) ->
  last_nav_on_or_before df t = option_map observation (last_with_date d df) /\
  last_with_date d df <> None.
Proof.
  intros Hs Hdt Hex Hmax. apply Sorted_StronglySorted_rows in Hs.
  destruct (iloc_last_on_date df d Hs Hex) as [H1 H2].
  split; [| exact H2].
  unfold last_nav_on_or_before. fold (on_or_before t).
  replace (filter (on_or_before t) df) with (filter (on_or_before d) df).
  - rewrite H1. destruct (last_with_date d df); reflexivity.
  - apply filter_ext_in. intros r Hr. unfold on_or_before.
    destruct (leb (ts_date (row_date r)) d) eqn:E1.
    + symmetry. eapply leb_trans; eassumption.
    + destruct (leb (ts_date (row_date r)) t) eqn:E2; [| reflexivity].
      rewrite (Hmax _ Hr E2) in E1. discriminate.
Qed.

Lemma dropna_filter rows :
  map as_parsed (dropna rows) = filter complete rows.
Proof.
  induction rows as [| p rows IH]; [reflexivity |].
  unfold dropna in *. simpl. unfold complete at 1.
  destruct p as [[t |] v]; simpl; [| exact IH].
  destruct (is_nan v); simpl; [exact IH |].
  unfold as_parsed at 1. simpl. now rewrite IH.
Qed.

Lemma dropna_none rows :
  Forall (fun p => complete p = false) rows -> dropna rows = [].
Proof.
  intros H. pose proof (f_equal (@List.length _) (dropna_filter rows)) as Hlen.
  rewrite length_map in Hlen.
  assert (Hf : filter complete rows = []).
  { clear Hlen. induction H as [| p rows Hp _ IH]; simpl; [reflexivity |].
    rewrite Hp. exact IH. }
  rewrite Hf in Hlen. now apply length_zero_iff_nil.
Qed.

Section GetNavData.

Variable to_datetime : list string -> list (option Timestamp).
Variable to_numeric : string -> float.
Variable sort_values : DataFrame -> DataFrame.

Hypothesis sort_values_sorted : forall df, Sorted row_le (sort_values df).
Hypothesis sort_values_perm : forall df, Permutation df (sort_values df).

Local Abbreviation get_nav_data :=
  (Nav.get_nav_data to_datetime to_numeric sort_values).
Local Abbreviation parse_columns :=
  (Nav.parse_columns to_datetime to_numeric).

Lemma get_nav_data_ok http code resp data :
  http (scheme_url code) = ret resp ->
  status_code resp = 200 ->
  json_data resp = ret data ->
  data <> [] ->
  get_nav_data http code = ret (sort_values (dropna (parse_columns data))).
Proof.
  intros Hr Hs Hd Hne. unfold Nav.get_nav_data. rewrite Hr. simpl.
  rewrite Hs. simpl. rewrite Hd. simpl.
  destruct data; [contradiction | reflexivity].
Qed.

Lemma get_nav_data_inv http code S :
  get_nav_data http code = ret S ->
  exists resp data,
    http (scheme_url code) = ret resp /\
    status_code resp = 200 /\
    json_data resp = ret data /\
    data <> [] /\
    S = sort_values (dropna (parse_columns data)).
Proof.
  unfold Nav.get_nav_data.
  destruct (http (scheme_url code)) as [e | resp]; simpl; [discriminate |].
  destruct (Z.eqb_spec (status_code resp) 200) as [Hs | Hs]; simpl;
    [| discriminate].
  destruct (json_data resp) as [e | data] eqn:Hd; simpl; [discriminate |].
  destruct data as [| r data]; [discriminate |].
  intros [= <-]. exists resp, (r :: data).
  repeat split; auto. discriminate.
Qed.

(** The rows of the parsed table, by position in the payload. *)
Lemma parse_columns_In p data :
  In p (parse_columns data) <->
  exists i raw d,
    nth_error data i = Some raw /\
    nth_error (to_datetime (map raw_date data)) i = Some d /\
    p = mkparsed d (to_numeric (raw_nav raw)).
Proof.
  unfold Nav.parse_columns. rewrite in_map_iff. split.
  - intros ([d raw] & <- & Hin). apply In_nth_error in Hin.
    destruct Hin as [i Hi]. rewrite nth_error_combine in Hi.
    destruct (nth_error (to_datetime (map raw_date data)) i) as [d' |] eqn:E1;
      [| discriminate].
    destruct (nth_error data i) as [raw' |] eqn:E2; [| discriminate].
    injection Hi as -> ->. exists i, raw, d. auto.
  - intros (i & raw & d & H1 & H2 & ->). exists (d, raw).
    split; [reflexivity |].
    apply (nth_error_In _ i). rewrite nth_error_combine. now rewrite H2, H1.
Qed.

Lemma parse_columns_reading data :
  parse_columns data =
  map (Spec.reading to_numeric)
      (combine (to_datetime (map raw_date data)) data).
Proof. reflexivity. Qed.

(** C5, as the code has it.  An empty payload is refused with "No data
    returned".  On a non-empty payload each record is paired with what
    the date column reads at its position; the series is the records whose
    date and number both read (whole records, in payload order, values as
    read), reordered by date, and a payload none of whose records reads
    gives the empty series. *)
Theorem get_nav_data_series http code resp data :
  (forall col, List.length (to_datetime col) = List.length col) ->
  http (scheme_url code) = ret resp ->
  status_code resp = 200 ->
  json_data resp = ret data ->
  let dated := combine (to_datetime (map raw_date data)) data in
  (data = [] ->
   get_nav_data http code = raise (RuntimeError (NoDataReturned code))) /\
  (data <> [] ->
   exists S kept,
     get_nav_data http code = ret S /\
     map snd dated = data /\
     map as_parsed kept =
     map (Spec.reading to_numeric) (filter (Spec.admitted to_numeric) dated) /\
     Permutation kept S /\
     Sorted row_le S /\
     (forallb (fun p => negb (Spec.admitted to_numeric p)) dated = true ->
      S = [])).
Proof.
  intros Hlen Hr Hs Hd dated. split.
  - intros ->. unfold Nav.get_nav_data. rewrite Hr. simpl.
    rewrite Hs. simpl. rewrite Hd. reflexivity.
  - intros Hne.
    exists (sort_values (dropna (parse_columns data))),
           (dropna (parse_columns data)).
    split; [now apply (get_nav_data_ok http code resp) |].
    split; [apply map_snd_combine; now rewrite Hlen, length_map |].
    split.
    { rewrite dropna_filter, parse_columns_reading, filter_map_swap.
      reflexivity. }
    split; [apply sort_values_perm |].
    split; [apply sort_values_sorted |].
    intros Hall. rewrite dropna_none.
    + apply Permutation_nil. apply sort_values_perm.
    + rewrite parse_columns_reading. apply Forall_map.
      rewrite forallb_forall in Hall. apply Forall_forall.
      intros [[t |] raw] Hin; specialize (Hall _ Hin);
        unfold Spec.admitted, complete in *; simpl in *;
        [now apply negb_true_iff in Hall | reflexivity].
Qed.

(** C8, as the code has it: every observation admitted to the series
    carries the timestamp and the number its own record read as (the
    record at one position of the payload), and that number is not NaN;
    conversely every record whose date reads and whose value reads as a
    number other than NaN is admitted with that number, whatever its sign
    and whether it is finite or not. *)
Theorem admitted_price_not_nan http code S :
  get_nav_data http code = ret S ->
  exists resp data,
    http (scheme_url code) = ret resp /\
    json_data resp = ret data /\
    (forall r, In r S ->
       is_nan (row_nav r) = false /\
       exists i raw,
         nth_error data i = Some raw /\
         nth_error (to_datetime (map raw_date data)) i
         = Some (Some (row_date r)) /\
         row_nav r = to_numeric (raw_nav raw)) /\
    (forall i raw t,
       nth_error data i = Some raw ->
       nth_error (to_datetime (map raw_date data)) i = Some (Some t) ->
       is_nan (to_numeric (raw_nav raw)) = false ->
       In (mkrow t (to_numeric (raw_nav raw))) S).
Proof.
  intros HS.
  destruct (get_nav_data_inv _ _ _ HS) as (resp & data & Hr & Hs & Hd & Hne & ->).
  exists resp, data. split; [exact Hr |]. split; [exact Hd |]. split.
  - intros r Hin.
    apply (Permutation_in _ (Permutation_sym (sort_values_perm _))) in Hin.
    apply dropna_In in Hin. destruct Hin as (p & Hp & Hpd & Hpn & Hnan).
    apply parse_columns_In in Hp. destruct Hp as (i & raw & d & H1 & H2 & ->).
    simpl in *. split; [now rewrite <- Hpn |].
    exists i, raw. subst d. auto.
  - intros i raw t H1 H2 Hnan.
    apply (Permutation_in _ (sort_values_perm _)).
    apply dropna_In.
    exists (mkparsed (Some t) (to_numeric (raw_nav raw))). simpl.
    split; [apply parse_columns_In; now exists i, raw, (Some t) |].
    auto.
Qed.

(** C10, as the code has it: construction keeps every parsed record, also
    those that share a date, and when [d] is the latest date in the series
    on or before the target, the lookup returns the observation in the last
    position among those dated [d]. *)
Theorem same_date_last_position http code S d t :
  get_nav_data http code = ret S ->
  leb d t = true ->
  (exists r, In r S /\ ts_date (row_date r) = d) ->
  (forall r, In r S -> leb (ts_date (row_date r)) t = true ->
             leb (ts_date (row_date r)) d = true) ->
  (exists resp data,
     http (scheme_url code) = ret resp /\ json_data resp = ret data /\
     Permutation (dropna (parse_columns data)) S) /\
  last_nav_on_or_before S t = option_map observation (last_with_date d S) /\
  last_with_date d S <> None.
Proof.
  intros HS Hdt Hex Hmax.
  destruct (get_nav_data_inv _ _ _ HS) as (resp & data & Hr & Hs & Hd & Hne & E).
  split.
  - exists resp, data. subst S. auto.
  - apply lookup_last_with_date; auto. subst S. apply sort_values_sorted.
Qed.

End GetNavData.

End SeriesFacts.

(** * The series theorems on the concrete library *)

Module SeriesExamples.
Import Calendar Frame Nav CalendarFacts FrameFacts NavFacts SeriesFacts.

Lemma get_nav_data_series_witness :
  Demo.get_nav_data (Demo.serving Samples.raw_feed) "119551"
  = ret Samples.feb_2024_series /\
  Sorted row_le Samples.feb_2024_series.
Proof.
  destruct (get_nav_data_series
              Demo.to_datetime Demo.to_numeric Demo.sort_values
              DemoFacts.sort_values_sorted DemoFacts.sort_values_perm
              (Demo.serving Samples.raw_feed) "119551"
              (mkresp 200 (ret Samples.raw_feed)) Samples.raw_feed
              DemoFacts.to_datetime_length eq_refl eq_refl eq_refl)
    as [_ H].
  destruct H as (S & kept & HS & _ & _ & _ & Hsorted & _); [discriminate |].
  assert (E : S = Samples.feb_2024_series)
    by (vm_compute in HS; now injection HS).
  subst S. split; assumption.
Defined.

(** C5, as stated, fails on the empty payload: [get_nav_data] raises
    instead of returning an empty series. *)
Lemma get_nav_data_empty_payload :
  Demo.get_nav_data (Demo.serving []) "119551"
  = raise (RuntimeError (NoDataReturned "119551")).
Proof. reflexivity. Qed.

Lemma admitted_price_not_nan_witness :
  is_nan (row_nav (Samples.nav_row 2024 2 29 110)) = false /\
  exists i raw,
    nth_error Samples.raw_feed i = Some raw /\
    nth_error (Demo.to_datetime (map raw_date Samples.raw_feed)) i
    = Some (Some (row_date (Samples.nav_row 2024 2 29 110))) /\
    row_nav (Samples.nav_row 2024 2 29 110) = Demo.to_numeric (raw_nav raw).
Proof.
  destruct (admitted_price_not_nan
              Demo.to_datetime Demo.to_numeric Demo.sort_values
              DemoFacts.sort_values_perm
              (Demo.serving Samples.raw_feed) "119551"
              Samples.feb_2024_series)
    as (resp & data & Hresp & Hdata & Hrows & _).
  - vm_compute. reflexivity.
  - injection Hresp as <-. injection Hdata as <-.
    apply Hrows. right. left. reflexivity.
Defined.

(** C8, as stated, fails: a negative value is admitted. *)
Lemma negative_price_admitted :
  Demo.get_nav_data (Demo.serving Samples.raw_negative) "119551"
  = ret [Samples.nav_row 2024 1 31 (-5.25)] /\
  (row_nav (Samples.nav_row 2024 1 31 (-5.25)) <? 0)%float = true.
Proof. split; vm_compute; reflexivity. Qed.

(** An infinite value is admitted as well. *)
Example infinite_price_admitted :
  Demo.get_nav_data (Demo.serving Samples.raw_infinite) "119551"
  = ret [Samples.nav_row 2024 1 31 infinity] /\
  is_infinity (row_nav (Samples.nav_row 2024 1 31 infinity)) = true.
Proof. split; vm_compute; reflexivity. Qed.

Lemma same_date_last_position_witness :
  last_nav_on_or_before Samples.duplicate_series (mkdate 2024 1 31)
  = Some (mkobs (mkdate 2024 1 31) 101).
Proof.
  destruct (same_date_last_position
              Demo.to_datetime Demo.to_numeric Demo.sort_values
              DemoFacts.sort_values_sorted DemoFacts.sort_values_perm
              (Demo.serving Samples.raw_duplicates) "119551"
              Samples.duplicate_series (mkdate 2024 1 31) (mkdate 2024 1 31))
    as (_ & H & _).
  - vm_compute. reflexivity.
  - reflexivity.
  - exists (Samples.nav_row 2024 1 31 100). split; [now left | reflexivity].
  - intros r Hr H. exact H.
  - rewrite H. reflexivity.
Defined.

(** C10, as stated, fails: the series holds two observations dated
    31 January, the target 1 February is after that date, and the lookup
    returns the observation of 1 February, not the one in the last
    position among those of 31 January. *)
Lemma same_date_not_returned :
  Demo.get_nav_data (Demo.serving Samples.raw_duplicates) "119551"
  = ret Samples.duplicate_series /\
  List.length
    (filter (fun r => eqb (ts_date (row_date r)) (mkdate 2024 1 31))
            Samples.duplicate_series) = 2%nat /\
  leb (mkdate 2024 1 31) (mkdate 2024 2 1) = true /\
  last_with_date (mkdate 2024 1 31) Samples.duplicate_series
  = Some (Samples.nav_row 2024 1 31 101) /\
  last_nav_on_or_before Samples.duplicate_series (mkdate 2024 2 1)
  = Some (mkobs (mkdate 2024 2 1) 102) /\
  last_nav_on_or_before Samples.duplicate_series (mkdate 2024 2 1)
  <> option_map observation
       (last_with_date (mkdate 2024 1 31) Samples.duplicate_series).
Proof.
  split; [vm_compute; reflexivity |].
  repeat split; try reflexivity.
  vm_compute. discriminate.
Qed.

End SeriesExamples.

(** * Properties of the run *)

Module RunnerFacts.
Import Calendar Frame Nav Runner Report.

Lemma dict_mem_get {V} k (d : dict V) :
  dict_mem k d = true <-> exists v, dict_get k d = Some v.
Proof.
  unfold dict_mem. destruct (dict_get k d) as [v |].
  - split; [now exists v | reflexivity].
  - split; [discriminate | intros [v H]; discriminate].
Qed.

Lemma dict_get_set {V} k k' (v : V) d :
  dict_get k (dict_set k' v d) =
  if String.eqb k k' then Some v else dict_get k d.
Proof.
  induction d as [| [k0 v0] d IH]; simpl.
  - destruct (String.eqb k k'); reflexivity.
  - destruct (String.eqb_spec k' k0) as [-> | Hne]; simpl.
    + destruct (String.eqb k k0); reflexivity.
    + rewrite IH. destruct (String.eqb_spec k k0) as [-> | Hne'].
      * destruct (String.eqb_spec k0 k'); [congruence | reflexivity].
      * reflexivity.
Qed.

Lemma dict_set_keys {V} k (v : V) d :
  map fst (dict_set k v d) =
  if dict_mem k d then map fst d else map fst d ++ [k].
Proof.
  unfold dict_mem. induction d as [| [k0 v0] d IH]; simpl; [reflexivity |].
  destruct (String.eqb k k0); simpl; [reflexivity |].
  rewrite IH. destruct (dict_get k d); reflexivity.
Qed.

Lemma dict_get_append {V} k k' (x : V) d :
  dict_get k (dict_append k' x d) =
  if String.eqb k k'
  then option_map (fun l => l ++ [x]) (dict_get k d)
  else dict_get k d.
Proof.
  induction d as [| [k0 l0] d IH]; simpl.
  - destruct (String.eqb k k'); reflexivity.
  - destruct (String.eqb_spec k' k0) as [-> | Hne]; simpl.
    + destruct (String.eqb k k0); reflexivity.
    + rewrite IH. destruct (String.eqb_spec k k0) as [-> | Hne'].
      * destruct (String.eqb_spec k0 k'); [congruence | reflexivity].
      * reflexivity.
Qed.

Lemma dict_append_keys {V} k (x : V) d :
  map fst (dict_append k x d) = map fst d.
Proof.
  induction d as [| [k0 l0] d IH]; simpl; [reflexivity |].
  destruct (String.eqb k k0); simpl; [reflexivity | now rewrite IH].
Qed.

Lemma add_row_get k res item :
  dict_get k (add_row res item) =
  if String.eqb k (fst item) then Some (rows_of k res ++ [snd item])
  else dict_get k res.
Proof.
  unfold add_row, rows_of. rewrite dict_get_append.
  destruct (String.eqb_spec k (fst item)) as [<- | Hne].
  - unfold dict_mem. destruct (dict_get k res) as [l |] eqn:E.
    + rewrite E. reflexivity.
    + rewrite dict_get_set, String.eqb_refl. reflexivity.
  - destruct (dict_mem (fst item) res); [reflexivity |].
    rewrite dict_get_set.
    destruct (String.eqb_spec k (fst item)); [contradiction | reflexivity].
Qed.

Lemma add_row_mem k res item :
  dict_mem k (add_row res item) = dict_mem k res || String.eqb k (fst item).
Proof.
  unfold dict_mem at 1. rewrite add_row_get.
  destruct (String.eqb k (fst item)); [now rewrite orb_true_r |].
  rewrite orb_false_r. reflexivity.
Qed.

Lemma add_row_keys res item :
  map fst (add_row res item) =
  if dict_mem (fst item) res then map fst res else map fst res ++ [fst item].
Proof.
  unfold add_row. rewrite dict_append_keys.
  destruct (dict_mem (fst item) res) eqn:E; [reflexivity |].
  rewrite dict_set_keys, E. reflexivity.
Qed.

Lemma fold_add_row_mem k rows res :
  dict_mem k (fold_left add_row rows res) =
  dict_mem k res || existsb (fun item => String.eqb k (fst item)) rows.
Proof.
  revert res. induction rows as [| item rows IH]; intros res; simpl.
  - now rewrite orb_false_r.
  - rewrite IH, add_row_mem. now rewrite orb_assoc.
Qed.

Lemma fold_add_row_rows k rows res :
  rows_of k (fold_left add_row rows res) =
  rows_of k res
  ++ map snd (filter (fun item => String.eqb k (fst item)) rows).
Proof.
  revert res. induction rows as [| item rows IH]; intros res; simpl.
  - now rewrite app_nil_r.
  - rewrite IH. unfold rows_of at 1. rewrite add_row_get.
    destruct (String.eqb k (fst item)); simpl.
    + now rewrite <- app_assoc.
    + reflexivity.
Qed.

Lemma filter_twice {A} (f g : A -> bool) l :
  filter f (filter g l) = filter (fun x => f x && g x) l.
Proof.
  induction l as [| x l IH]; simpl; [reflexivity |].
  destruct (g x); simpl.
  - rewrite andb_true_r. destruct (f x); now rewrite IH.
  - rewrite andb_false_r. exact IH.
Qed.

Lemma fold_add_row_keys rows res :
  map fst (fold_left add_row rows res) =
  map fst res
  ++ filter (fun k => negb (dict_mem k res)) (first_seen (map fst rows)).
Proof.
  revert res. induction rows as [| item rows IH]; intros res; simpl.
  - now rewrite app_nil_r.
  - rewrite IH, add_row_keys.
    destruct (dict_mem (fst item) res) eqn:E; simpl.
    + f_equal. rewrite filter_twice. apply filter_ext. intros k.
      rewrite add_row_mem.
      destruct (String.eqb_spec k (fst item)) as [-> | Hne]; simpl.
      * now rewrite E.
      * now rewrite orb_false_r, andb_true_r.
    + rewrite <- app_assoc. simpl. do 2 f_equal.
      rewrite filter_twice. apply filter_ext. intros k.
      rewrite add_row_mem, negb_orb. reflexivity.
Qed.

Lemma group_rows_keys rows :
  map fst (group_rows rows) = first_seen (map fst rows).
Proof.
  unfold group_rows. rewrite fold_add_row_keys. simpl.
  induction (first_seen (map fst rows)) as [| k l IH]; simpl; congruence.
Qed.

Lemma group_rows_get rows k :
  In k (map fst rows) ->
  dict_get k (group_rows rows) =
  Some (map snd (filter (fun item => String.eqb k (fst item)) rows)).
Proof.
  intros Hin. unfold group_rows.
  pose proof (fold_add_row_rows k rows []) as Hrows.
  pose proof (fold_add_row_mem k rows []) as Hmem.
  assert (Hex : existsb (fun item => String.eqb k (fst item)) rows = true).
  { apply existsb_exists. apply in_map_iff in Hin.
    destruct Hin as (item & <- & Hitem). exists item.
    split; [exact Hitem | apply String.eqb_refl]. }
  rewrite Hex, orb_true_r in Hmem. apply dict_mem_get in Hmem.
  destruct Hmem as [l Hl]. unfold rows_of in Hrows. rewrite Hl in Hrows.
  simpl in Hrows. congruence.
Qed.

Lemma pair_rows_cons f n p ps :
  pair_rows f n (p :: ps) =
  (pair_category p,
   make_row (pair_amc p)
     (f (S n) (plans_get "Direct" (pair_plans p)))
     (f (S (S n)) (plans_get "Regular" (pair_plans p))))
  :: pair_rows f (S (S n)) ps.
Proof. reflexivity. Qed.

Lemma pair_rows_app f n ps1 ps2 :
  pair_rows f n (ps1 ++ ps2) =
  pair_rows f n ps1 ++ pair_rows f (n + 2 * List.length ps1) ps2.
Proof.
  revert n. induction ps1 as [| p ps1 IH]; intros n.
  - simpl. now rewrite Nat.add_0_r.
  - rewrite <- app_comm_cons, !pair_rows_cons, IH. simpl. do 3 f_equal.
    lia.
Qed.

Lemma pairs_cons amc (cat_dict : dict Plans) c :
  pairs ((amc, cat_dict) :: c) =
  map (fun entry => (amc, fst entry, snd entry)) cat_dict ++ pairs c.
Proof. reflexivity. Qed.

Lemma report_of_pair_rows f c :
  report_of f c = group_rows (pair_rows f 0 (pairs c)).
Proof. reflexivity. Qed.

Section Loops.

Variable to_datetime : list string -> list (option Timestamp).
Variable to_numeric : string -> float.
Variable sort_values : DataFrame -> DataFrame.
Variable w : World.
Variable total_tasks : nat.

Local Abbreviation plan_result :=
  (Runner.plan_result to_datetime to_numeric sort_values w).
Local Abbreviation plan_step :=
  (Runner.plan_step to_datetime to_numeric sort_values w total_tasks).
Local Abbreviation category_step :=
  (Runner.category_step to_datetime to_numeric sort_values w total_tasks).
Local Abbreviation amc_step :=
  (Runner.amc_step to_datetime to_numeric sort_values w total_tasks).

(** The two turns of the loop over the plans fill the row of the pair. *)
Lemma plan_loop amc category plans n lg :
  exists lg',
    fold_left (plan_step amc category plans)
      ["Direct"%string; "Regular"%string]
      ([("AMC"%string, VStr amc)], n, lg)
    = (make_row amc
         (plan_result (S n) (plans_get "Direct" plans))
         (plan_result (S (S n)) (plans_get "Regular" plans)),
       S (S n), lg').
Proof.
  cbn [fold_left]. unfold Runner.plan_step, Runner.plan_result.
  destruct (plans_get "Direct" plans) as [c1 |];
    [destruct (fetch_and_compute _ _ _ _ (S n) c1) |];
    (destruct (plans_get "Regular" plans) as [c2 |];
     [destruct (fetch_and_compute _ _ _ _ (S (S n)) c2) |]);
    eexists; reflexivity.
Qed.

Lemma category_step_eq amc st item :
  exists lg',
    category_step amc st item =
    mkstate
      (add_row (results st)
         (fst item,
          make_row amc
            (plan_result (S (task_counter st))
               (plans_get "Direct" (snd item)))
            (plan_result (S (S (task_counter st)))
               (plans_get "Regular" (snd item)))))
      (S (S (task_counter st))) lg'.
Proof.
  destruct item as [category plans]. unfold Runner.category_step.
  destruct (plan_loop amc category plans (task_counter st) (logged st))
    as [lg' ->].
  exists lg'. reflexivity.
Qed.

Lemma category_loop amc cat_dict st :
  exists lg',
    fold_left (category_step amc) cat_dict st =
    mkstate
      (fold_left add_row
         (pair_rows plan_result (task_counter st)
            (map (fun entry => (amc, fst entry, snd entry)) cat_dict))
         (results st))
      (task_counter st + 2 * List.length cat_dict) lg'.
Proof.
  revert st. induction cat_dict as [| item cat_dict IH]; intros st.
  - exists (logged st). destruct st; simpl. now rewrite Nat.add_0_r.
  - cbn [fold_left map].
    destruct (category_step_eq amc st item) as [lg1 ->].
    destruct (IH (mkstate
                    (add_row (results st)
                       (fst item,
                        make_row amc
                          (plan_result (S (task_counter st))
                             (plans_get "Direct" (snd item)))
                          (plan_result (S (S (task_counter st)))
                             (plans_get "Regular" (snd item)))))
                    (S (S (task_counter st))) lg1)) as [lg' ->].
    exists lg'. rewrite pair_rows_cons. cbn [fold_left results task_counter].
    f_equal. simpl. lia.
Qed.

Lemma amc_loop c st :
  exists lg',
    fold_left amc_step c st =
    mkstate
      (fold_left add_row (pair_rows plan_result (task_counter st) (pairs c))
                 (results st))
      (task_counter st + 2 * List.length (pairs c)) lg'.
Proof.
  revert st. induction c as [| [amc cat_dict] c IH]; intros st.
  - exists (logged st). destruct st; simpl. now rewrite Nat.add_0_r.
  - cbn [fold_left]. unfold Runner.amc_step at 2.
    destruct (category_loop amc cat_dict
                (mkstate (results st) (task_counter st)
                         (logged st ++ [LogProcessing amc])))
      as [lg1 ->].
    cbn [results task_counter].
    match goal with
    | |- context [ fold_left amc_step c ?st1 ] =>
        destruct (IH st1) as [lg' ->]
    end.
    exists lg'. cbn [results task_counter].
    rewrite pairs_cons, pair_rows_app, fold_left_app, length_app, length_map.
    f_equal. lia.
Qed.

End Loops.

(** The run lays out, for every task, the value computed for that task. *)
Theorem build_results_report to_datetime to_numeric sort_values w c :
  build_results to_datetime to_numeric sort_values w c =
  report_of (plan_result to_datetime to_numeric sort_values w) c.
Proof.
  unfold build_results, run.
  match goal with
  | |- context [ fold_left ?f c ?st ] =>
      destruct (amc_loop to_datetime to_numeric sort_values w
                  (list_sum (map (fun item => List.length (snd item) * 2)%nat c))
                  c st) as [lg' E]
  end.
  rewrite E. reflexivity.
Qed.

Lemma pair_rows_keys f n ps :
  map fst (pair_rows f n ps) = map pair_category ps.
Proof.
  revert n. induction ps as [| p ps IH]; intros n; [reflexivity |].
  rewrite pair_rows_cons. simpl. now rewrite IH.
Qed.

Lemma pair_rows_numbered f j ps :
  pair_rows f (2 * j) ps =
  map (fun jp => (pair_category (snd jp), row_of_pair f jp)) (numbered j ps).
Proof.
  revert j. induction ps as [| p ps IH]; intros j; [reflexivity |].
  rewrite pair_rows_cons. cbn [numbered map snd fst].
  unfold row_of_pair at 1. cbn [snd fst].
  replace (2 * j + 1)%nat with (S (2 * j)) by lia.
  replace (2 * j + 2)%nat with (S (S (2 * j))) by lia.
  f_equal. rewrite <- IH. f_equal. lia.
Qed.

Lemma pair_rows_category f ps category j :
  map snd
    (filter (fun item => String.eqb category (fst item))
            (pair_rows f (2 * j) ps)) =
  map (row_of_pair f)
      (filter (fun jp => in_category category (snd jp)) (numbered j ps)).
Proof.
  rewrite pair_rows_numbered, FrameFacts.filter_map_swap, map_map.
  cbn [fst snd]. f_equal. apply filter_ext. intros jp.
  unfold in_category. apply String.eqb_sym.
Qed.

(** C9: the report has one entry per category, in the order in which the
    categories are first met in the catalogue; under each category there
    is exactly one row per (AMC, category) pair of the catalogue, in
    iteration order; the row of the pair at position [j] carries the AMC
    and, for each of the plans Direct and Regular, the result of its task
    ([2j + 1] and [2j + 2]): unavailable when the pair declares no scheme
    code for the plan or when the fetch or the calculation fails, the
    outcome of the calculation on the fetched series otherwise. *)
Theorem build_results_rows to_datetime to_numeric sort_values w c :
  let res := build_results to_datetime to_numeric sort_values w c in
  let cell := plan_result to_datetime to_numeric sort_values w in
  map fst res = first_seen (map pair_category (pairs c)) /\
  forall category, In category (map pair_category (pairs c)) ->
    dict_get category res =
    Some (map (row_of_pair cell)
              (filter (fun jp => in_category category (snd jp))
                      (numbered 0 (pairs c)))).
Proof.
  cbv zeta. rewrite build_results_report, report_of_pair_rows. split.
  - now rewrite group_rows_keys, pair_rows_keys.
  - intros category Hin.
    rewrite group_rows_get by now rewrite pair_rows_keys.
    f_equal. apply (pair_rows_category _ (pairs c) category 0).
Qed.

Lemma build_results_rows_witness :
  map fst (Samples.demo_build_results Samples.all_served Samples.two_amcs)
  = ["Equity"%string] /\
  dict_get "Equity"
    (Samples.demo_build_results Samples.all_served Samples.two_amcs)
  = Some [make_row "AMC A"
            (Samples.demo_plan_result Samples.all_served 1 (Some "101"%string))
            (Samples.demo_plan_result Samples.all_served 2 (Some "102"%string));
          make_row "AMC B"
            (Samples.demo_plan_result Samples.all_served 3 (Some "201"%string))
            (Samples.demo_plan_result Samples.all_served 4 None)].
Proof.
  destruct (build_results_rows
              Demo.to_datetime Demo.to_numeric Demo.sort_values
              Samples.all_served Samples.two_amcs) as [Hkeys Hrows].
  split; [exact Hkeys |].
  apply (Hrows "Equity"%string). left. reflexivity.
Defined.

(** The report of the sample catalogue when every request is served. *)
Example report_all_served :
  Samples.demo_build_results Samples.all_served Samples.two_amcs
  = [("Equity"%string,
      [make_row "AMC A" (VFloat 0x1.4234f72c234f8p+0)
                        (VFloat 0x1.4234f72c234f8p+0);
       make_row "AMC B" (VFloat 0x1.4234f72c234f8p+0) VNone])].
Proof. vm_compute. reflexivity. Qed.

(** The same run with the second request failing: one cell changes. *)
Example report_second_fails :
  Samples.demo_build_results Samples.second_fails Samples.two_amcs
  = [("Equity"%string,
      [make_row "AMC A" (VFloat 0x1.4234f72c234f8p+0) VNone;
       make_row "AMC B" (VFloat 0x1.4234f72c234f8p+0) VNone])].
Proof. vm_compute. reflexivity. Qed.

Lemma cells_from_nth f n cs m :
  nth_error (cells_from f n cs) m =
  option_map (f (S (n + m))) (nth_error cs m).
Proof.
  revert n m. induction cs as [| code cs IH]; intros n m.
  - destruct m; reflexivity.
  - destruct m as [| m]; simpl.
    + now rewrite Nat.add_0_r.
    + rewrite IH. now rewrite Nat.add_succ_r.
Qed.

Lemma cells_from_ext f g n cs :
  (forall m code, f m code = g m code) ->
  cells_from f n cs = cells_from g n cs.
Proof.
  intros H. revert n. induction cs as [| code cs IH]; intros n; simpl;
    [reflexivity |].
  now rewrite H, IH.
Qed.

Lemma report_of_ext f g c :
  (forall m code, f m code = g m code) -> report_of f c = report_of g c.
Proof.
  intros H. unfold report_of. now rewrite (cells_from_ext f g 0 _ H).
Qed.

Section Isolation.

Variable to_datetime : list string -> list (option Timestamp).
Variable to_numeric : string -> float.
Variable sort_values : DataFrame -> DataFrame.

Local Abbreviation plan_result :=
  (Runner.plan_result to_datetime to_numeric sort_values).
Local Abbreviation fetch_and_compute :=
  (Runner.fetch_and_compute to_datetime to_numeric sort_values).
Local Abbreviation build_results :=
  (Runner.build_results to_datetime to_numeric sort_values).

(** The value of a task depends on the world at that task only. *)
Lemma plan_result_local w w' n code :
  (forall url, requests_get w' n url = requests_get w n url) ->
  today w' n = today w n ->
  plan_result w' n code = plan_result w n code.
Proof.
  intros Hreq Htoday. destruct code as [code |]; [| reflexivity].
  unfold Runner.plan_result, Runner.fetch_and_compute, get_nav_data.
  now rewrite Hreq, Htoday.
Qed.

Lemma fetch_failure w n code e :
  requests_get w n (scheme_url code) = raise e ->
  fetch_and_compute w n code = raise e.
Proof.
  intros H. unfold Runner.fetch_and_compute, get_nav_data.
  now rewrite H.
Qed.

Lemma fetch_refused w n code resp :
  requests_get w n (scheme_url code) = ret resp ->
  status_code resp <> 200 \/ json_data resp = ret [] ->
  exists e, fetch_and_compute w n code = raise e.
Proof.
  intros H Hbad. unfold Runner.fetch_and_compute, get_nav_data.
  rewrite H. simpl.
  destruct (Z.eqb_spec (status_code resp) 200) as [E | E]; simpl.
  - destruct Hbad as [Hbad | Hbad]; [contradiction |].
    rewrite Hbad. simpl. eauto.
  - eauto.
Qed.

(** C1: the run completes and lays out one value per task, each computed
    from that task alone; a task without identifier, a task whose fetch
    fails (no response, a status other than 200, an empty payload) and a
    task whose series construction or calculation raises get the
    unavailable marker; and when another run differs from this one
    only at one task (its fetch outcome, its clock reading, or its
    identifier being present), the values of all other tasks, laid out in
    the same skeleton, are the same. *)
Theorem per_item_isolation (w : World) (c : Catalog) :
  build_results w c =
  group_rows (fill (layout c) (cells_from (plan_result w) 0 (codes c))) /\
  (forall n, plan_result w n None = VNone) /\
  (forall n code e,
     requests_get w n (scheme_url code) = raise e ->
     plan_result w n (Some code) = VNone) /\
  (forall n code resp,
     requests_get w n (scheme_url code) = ret resp ->
     status_code resp <> 200 \/ json_data resp = ret [] ->
     plan_result w n (Some code) = VNone) /\
  (forall n code e,
     fetch_and_compute w n code = raise e ->
     plan_result w n (Some code) = VNone) /\
  (forall (w' : World) (c' : Catalog) (k : nat),
     layout c' = layout c ->
     (forall m, m <> k -> nth_error (codes c') m = nth_error (codes c) m) ->
     (forall m url, m <> k ->
        requests_get w' (S m) url = requests_get w (S m) url) ->
     (forall m, m <> k -> today w' (S m) = today w (S m)) ->
     build_results w' c' =
     group_rows (fill (layout c) (cells_from (plan_result w') 0 (codes c'))) /\
     forall m, m <> k ->
       nth_error (cells_from (plan_result w') 0 (codes c')) m =
       nth_error (cells_from (plan_result w) 0 (codes c)) m).
Proof.
  split; [apply build_results_report |].
  split; [reflexivity |].
  split.
  { intros n code e H. apply fetch_failure in H.
    unfold Runner.plan_result. now rewrite H. }
  split.
  { intros n code resp H Hbad.
    destruct (fetch_refused w n code resp H Hbad) as [e He].
    unfold Runner.plan_result. now rewrite He. }
  split.
  { intros n code e H. unfold Runner.plan_result. now rewrite H. }
  intros w' c' k Hlay Hcodes Hreq Htoday. split.
  - rewrite build_results_report. unfold report_of. now rewrite Hlay.
  - intros m Hm. rewrite !cells_from_nth, (Hcodes m Hm). simpl.
    destruct (nth_error (codes c) m) as [code |]; [| reflexivity].
    simpl. f_equal. apply plan_result_local; auto.
Qed.

End Isolation.

Lemma per_item_isolation_witness :
  nth_error
    (cells_from (Samples.demo_plan_result Samples.second_fails) 0
       (codes Samples.two_amcs)) 2
  = nth_error
      (cells_from (Samples.demo_plan_result Samples.all_served) 0
         (codes Samples.two_amcs)) 2.
Proof.
  refine (proj2 (proj2 (proj2 (proj2 (proj2 (proj2
            (per_item_isolation
               Demo.to_datetime Demo.to_numeric Demo.sort_values
               Samples.all_served Samples.two_amcs)))))
            Samples.second_fails Samples.two_amcs 1%nat
            eq_refl (fun _ _ => eq_refl) _ (fun _ _ => eq_refl))
          2%nat _).
  - intros m url Hm. simpl.
    destruct m as [| [| m]]; [reflexivity | contradiction | reflexivity].
  - discriminate.
Defined.

End RunnerFacts.

(** * The window: once per run, or once per item *)

Module WindowFacts.
Import Calendar Frame Nav Runner Report.
Import CalendarFacts NavFacts RunnerFacts.

Lemma reference_window_same_month a b :
  year a = year b -> month a = month b ->
  Spec.reference_window a = Spec.reference_window b.
Proof. intros Hy Hm. unfold Spec.reference_window. now rewrite Hy, Hm. Qed.

Lemma monthly_rolling_return_compute today df window :
  Nav.reference_window today = ret window ->
  monthly_rolling_return today df = ret (Spec.compute df window).
Proof.
  destruct window as [s e]. intros Hw.
  rewrite (monthly_rolling_return_window _ _ _ _ Hw). unfold Spec.compute.
  simpl.
  destruct (last_nav_on_or_before df s) as [t0 |]; [| reflexivity].
  destruct (last_nav_on_or_before df e) as [t1 |]; [| reflexivity].
  destruct (days_between (obs_date t1) (obs_date t0) <=? 0); simpl;
    [reflexivity |].
  destruct (obs_nav t0 =? 0)%float; reflexivity.
Qed.

Section Once.

Variable to_datetime : list string -> list (option Timestamp).
Variable to_numeric : string -> float.
Variable sort_values : DataFrame -> DataFrame.

Lemma plan_result_once_eq w window n code :
  Nav.reference_window (today w n) = ret window ->
  plan_result to_datetime to_numeric sort_values w n code =
  Spec.plan_result_once to_datetime to_numeric sort_values w window n code.
Proof.
  intros Hw. destruct code as [code |]; [| reflexivity].
  unfold plan_result, Spec.plan_result_once, fetch_and_compute.
  destruct (get_nav_data _ _ _ (requests_get w n) code) as [e | df]; simpl;
    [reflexivity |].
  now rewrite (monthly_rolling_return_compute _ _ _ Hw).
Qed.

(** C7, as the code has it: the window is recomputed for every item from
    the date read at that item.  When every date read during the run lies
    in the calendar month of the date at which the run starts, every item
    gets the window of that date, and the report is the one of the run
    that computes the window once and reuses it. *)
Theorem window_once_same_month (w : World) (c : Catalog) (current : date) :
  (forall n,
     valid (today w n) = true /\ MINYEAR < year (today w n) /\
     year (today w n) = year current /\
     month (today w n) = month current) ->
  (forall n,
     Nav.reference_window (today w n) = ret (Spec.reference_window current)) /\
  build_results to_datetime to_numeric sort_values w c =
  Spec.build_results_once to_datetime to_numeric sort_values w current c.
Proof.
  intros H.
  assert (Hw : forall n,
             Nav.reference_window (today w n)
             = ret (Spec.reference_window current)).
  { intros n. destruct (H n) as (V & Hy & Ey & Em).
    rewrite reference_window_spec by assumption.
    now rewrite (reference_window_same_month _ current Ey Em). }
  split; [exact Hw |].
  rewrite build_results_report. unfold Spec.build_results_once.
  apply report_of_ext. intros n code. now apply plan_result_once_eq.
Qed.

End Once.

Lemma window_once_same_month_witness :
  Samples.demo_build_results Samples.all_served Samples.two_amcs =
  Samples.demo_build_results_once Samples.all_served (mkdate 2024 3 1)
    Samples.two_amcs.
Proof.
  refine (proj2 (window_once_same_month
                   Demo.to_datetime Demo.to_numeric Demo.sort_values
                   Samples.all_served Samples.two_amcs (mkdate 2024 3 1) _)).
  intros n. repeat split.
Defined.

(** C7, as stated, fails: in a run that starts on 31 January and reaches
    its second item on 1 February the two items get different windows, and
    the report differs from the one of the run that computes the window
    once. *)
Lemma window_differs_over_midnight :
  Nav.reference_window (today Samples.over_midnight 1)
  = ret (mkdate 2023 11 30, mkdate 2023 12 31) /\
  Nav.reference_window (today Samples.over_midnight 2)
  = ret (mkdate 2023 12 31, mkdate 2024 1 31) /\
  exists v1 v2,
    Samples.demo_build_results Samples.over_midnight Samples.one_amc
    = [("Equity"%string, [make_row "AMC A" (VFloat v1) (VFloat v2)])] /\
    Samples.demo_build_results_once Samples.over_midnight
      (today Samples.over_midnight 1) Samples.one_amc
    = [("Equity"%string, [make_row "AMC A" (VFloat v1) (VFloat v1)])] /\
    (v1 =? v2)%float = false.
Proof.
  split; [reflexivity |]. split; [reflexivity |].
  do 2 eexists. split; [vm_compute; reflexivity |].
  split; vm_compute; reflexivity.
Qed.

End WindowFacts.

(** * Further properties of the lookup and of the calculator *)

Module NavExtras.
Import Calendar Frame Nav CalendarFacts FrameFacts NavFacts SeriesFacts.

Lemma filter_last_split {A} (P : A -> bool) l pre x :
  filter P l = pre ++ [x] ->
  exists before after,
    l = before ++ x :: after /\ P x = true /\ filter P after = [].
Proof.
  revert pre. induction l as [| y l IH] using rev_ind; intros pre H.
  - destruct pre; discriminate.
  - rewrite filter_app in H. simpl in H. destruct (P y) eqn:Py.
    + apply app_inj_tail in H. destruct H as [_ <-].
      exists l, []. auto.
    + rewrite app_nil_r in H.
      destruct (IH _ H) as (before & after & -> & Px & Hafter).
      exists before, (after ++ [y]). rewrite <- app_assoc. simpl.
      repeat split; auto.
      rewrite filter_app, Hafter. simpl. now rewrite Py.
Qed.

Lemma filter_nil_weaken {A} (P Q : A -> bool) l :
  (forall x, Q x = true -> P x = true) ->
  filter P l = [] -> filter Q l = [].
Proof.
  intros HQP. induction l as [| y l IH]; [reflexivity |].
  simpl. destruct (P y) eqn:Py; [discriminate |].
  destruct (Q y) eqn:Qy; [| exact IH].
  rewrite (HQP _ Qy) in Py. discriminate.
Qed.

Lemma last_nav_on_or_before_split df d o :
  last_nav_on_or_before df d = Some o ->
  exists before row after,
    df = before ++ row :: after /\ o = observation row /\
    on_or_before d row = true /\ filter (on_or_before d) after = [].
Proof.
  unfold last_nav_on_or_before.
  destruct (iloc_last (filter (on_or_before d) df)) as [row |] eqn:E;
    [| discriminate].
  intros [= <-]. apply iloc_last_Some in E. destruct E as [pre E].
  destruct (filter_last_split _ _ _ _ E) as (before & after & H1 & H2 & H3).
  exists before, row, after. auto.
Qed.

(** X1: the lookup does not move between an observation and the target
    that found it: when the lookup at [d] returns [o], the lookup at any
    date from [o]'s date up to [d] returns [o] as well (in any frame, sorted
    or not). *)
Theorem last_nav_on_or_before_stable df d d' o :
  last_nav_on_or_before df d = Some o ->
  leb (obs_date o) d' = true -> leb d' d = true ->
  last_nav_on_or_before df d' = Some o.
Proof.
  intros H Hlo Hhi.
  destruct (last_nav_on_or_before_split _ _ _ H)
    as (before & row & after & -> & -> & Hrow & Hafter).
  unfold last_nav_on_or_before.
  rewrite filter_app. simpl.
  replace (on_or_before d' row) with true by (symmetry; exact Hlo).
  assert (Hafter' : filter (on_or_before d') after = []).
  { apply (filter_nil_weaken (on_or_before d)); [| exact Hafter].
    intros y Hy. unfold on_or_before in *. eapply leb_trans; eassumption. }
  rewrite Hafter'.
  now rewrite (iloc_last_app (filter (on_or_before d') before) row).
Qed.

Lemma last_nav_on_or_before_stable_witness :
  last_nav_on_or_before Samples.feb_2024_series (mkdate 2024 2 3)
  = Some (mkobs (mkdate 2024 1 31) 100).
Proof.
  apply (last_nav_on_or_before_stable
           Samples.feb_2024_series (mkdate 2024 2 15) (mkdate 2024 2 3));
    reflexivity.
Defined.

Lemma lookup_mono S d1 d2 o1 :
  StronglySorted row_le S ->
  leb d1 d2 = true ->
  last_nav_on_or_before S d1 = Some o1 ->
  exists o2,
    last_nav_on_or_before S d2 = Some o2 /\
    leb (obs_date o1) (obs_date o2) = true.
Proof.
  intros Hs Hd H1.
  destruct (last_nav_on_or_before_Some _ _ _ Hs H1)
    as (r1 & -> & Hin1 & Hle1 & _).
  assert (Hle2 : on_or_before d2 r1 = true)
    by (unfold on_or_before in *; eapply leb_trans; eassumption).
  destruct (last_nav_on_or_before S d2) as [o2 |] eqn:E2.
  - exists o2. split; [reflexivity |].
    destruct (last_nav_on_or_before_Some _ _ _ Hs E2)
      as (r2 & -> & _ & _ & Hmax).
    simpl. apply ts_leb_date. now apply Hmax.
  - rewrite last_nav_on_or_before_None in E2.
    rewrite (E2 _ Hin1) in Hle2. discriminate.
Qed.

(** X2: on a series the lookup is monotone in the target: when it
    succeeds at [d1] it succeeds at every later [d2], and the observation
    found there is not dated earlier. *)
Theorem last_nav_on_or_before_monotone S d1 d2 o1 :
  Sorted row_le S ->
  leb d1 d2 = true ->
  last_nav_on_or_before S d1 = Some o1 ->
  exists o2,
    last_nav_on_or_before S d2 = Some o2 /\
    leb (obs_date o1) (obs_date o2) = true.
Proof.
  intros Hs. apply lookup_mono. now apply Sorted_StronglySorted_rows.
Qed.

Lemma last_nav_on_or_before_monotone_witness :
  exists o2,
    last_nav_on_or_before Samples.feb_2024_series (mkdate 2024 2 29)
    = Some o2 /\
    leb (mkdate 2024 1 31) (obs_date o2) = true.
Proof.
  apply (last_nav_on_or_before_monotone
           Samples.feb_2024_series (mkdate 2024 1 31) (mkdate 2024 2 29)
           (mkobs (mkdate 2024 1 31) 100)).
  - repeat constructor.
  - reflexivity.
  - reflexivity.
Defined.

Lemma toordinal_le a b :
  valid a = true -> valid b = true ->
  leb a b = true -> toordinal a <= toordinal b.
Proof.
  intros Va Vb H. apply leb_spec in H. destruct H as [H | ->]; [| lia].
  pose proof (toordinal_lt _ _ Va Vb H). lia.
Qed.

Lemma monthly_rolling_return_inv today df r :
  monthly_rolling_return today df = ret r ->
  exists s e, reference_window today = ret (s, e).
Proof.
  unfold monthly_rolling_return, reference_window.
  destruct (end_of_previous_month today) as [x | e]; simpl; [discriminate |].
  destruct (end_of_previous_month e) as [x | s]; simpl; [discriminate |].
  intros _. now exists s, e.
Qed.

Lemma lookup_on_or_before df d o :
  last_nav_on_or_before df d = Some o -> leb (obs_date o) d = true.
Proof.
  intros H. destruct (last_nav_on_or_before_split _ _ _ H)
    as (before & row & after & _ & -> & Hrow & _).
  exact Hrow.
Qed.

Lemma lookup_valid df d o :
  Forall (fun r => valid (ts_date (row_date r)) = true) df ->
  last_nav_on_or_before df d = Some o -> valid (obs_date o) = true.
Proof.
  intros Hv H. destruct (last_nav_on_or_before_In _ _ _ H) as (r & Hr & ->).
  rewrite Forall_forall in Hv. now apply Hv.
Qed.

(** X3: a returned number always comes from two successful lookups, the
    earlier one dated strictly before the later one and neither after its
    reference date, with a non-zero earlier price; the number is the
    annualised formula on those two observations. *)
Theorem monthly_rolling_return_value today df v :
  Forall (fun r => valid (ts_date (row_date r)) = true) df ->
  monthly_rolling_return today df = ret (Some v) ->
  exists start_date end_date t0 t1,
    reference_window today = ret (start_date, end_date) /\
    last_nav_on_or_before df start_date = Some t0 /\
    last_nav_on_or_before df end_date = Some t1 /\
    leb (obs_date t0) start_date = true /\
    leb (obs_date t1) end_date = true /\
    ltb (obs_date t0) (obs_date t1) = true /\
    (obs_nav t0 =? 0)%float = false /\
    v = (((obs_nav t1 - obs_nav t0) / obs_nav t0)
         * (365 / float_of_int
                    (days_between (obs_date t1) (obs_date t0))))%float.
Proof.
  intros Hv H.
  destruct (monthly_rolling_return_inv _ _ _ H) as (s & e & Hw).
  rewrite (monthly_rolling_return_window _ _ _ _ Hw) in H.
  destruct (last_nav_on_or_before df s) as [t0 |] eqn:E0; [| discriminate].
  destruct (last_nav_on_or_before df e) as [t1 |] eqn:E1; [| discriminate].
  destruct (days_between (obs_date t1) (obs_date t0) <=? 0) eqn:Ed;
    [discriminate |].
  destruct (obs_nav t0 =? 0)%float eqn:Ez; [discriminate |].
  simpl in H. injection H as <-.
  exists s, e, t0, t1. repeat split; auto.
  - now apply (lookup_on_or_before df).
  - now apply (lookup_on_or_before df).
  - apply days_between_pos.
    + now apply (lookup_valid df s).
    + now apply (lookup_valid df e).
    + apply Z.leb_gt in Ed. now apply Z.ltb_lt.
Qed.

Lemma monthly_rolling_return_value_witness :
  exists start_date end_date t0 t1,
    reference_window (mkdate 2024 3 15) = ret (start_date, end_date) /\
    last_nav_on_or_before Samples.feb_2024_series start_date = Some t0 /\
    last_nav_on_or_before Samples.feb_2024_series end_date = Some t1 /\
    ltb (obs_date t0) (obs_date t1) = true.
Proof.
  destruct (monthly_rolling_return_value
              (mkdate 2024 3 15) Samples.feb_2024_series
              0x1.4234f72c234f8p+0)
    as (s & e & t0 & t1 & Hw & H0 & H1 & _ & _ & Hlt & _).
  - repeat constructor.
  - vm_compute. reflexivity.
  - exists s, e, t0, t1. auto.
Defined.

Lemma spec_window_ordered today :
  valid today = true -> MINYEAR < year today ->
  ltb (fst (Spec.reference_window today)) (snd (Spec.reference_window today))
  = true.
Proof.
  intros V Hy. apply valid_spec in V. destruct V as (Hy' & Hm & _).
  assert (Hy1 : 1 < year today) by exact Hy.
  destruct (prev_month_range (year today) (month today)) as [_ Hme];
    [lia | lia | lia |].
  unfold Spec.reference_window. cbv zeta. simpl.
  apply (prev_month_before _ _ _ Hme).
Qed.

(** X4: on a series with valid dates the two lookups can never be
    inverted, so the guard [days <= 0] fires only when both resolve to the
    same date: the result is unavailable exactly when a lookup is absent,
    both observations bear the same date, or the earlier price is 0. *)
Theorem monthly_rolling_return_on_series today S :
  valid today = true -> MINYEAR < year today ->
  Sorted row_le S ->
  Forall (fun r => valid (ts_date (row_date r)) = true) S ->
  let start_date := fst (Spec.reference_window today) in
  let end_date := snd (Spec.reference_window today) in
  (forall t0 t1,
     last_nav_on_or_before S start_date = Some t0 ->
     last_nav_on_or_before S end_date = Some t1 ->
     0 <= days_between (obs_date t1) (obs_date t0)) /\
  (monthly_rolling_return today S = ret None <->
   last_nav_on_or_before S start_date = None \/
   last_nav_on_or_before S end_date = None \/
   exists t0 t1,
     last_nav_on_or_before S start_date = Some t0 /\
     last_nav_on_or_before S end_date = Some t1 /\
     (obs_date t0 = obs_date t1 \/ (obs_nav t0 =? 0)%float = true)).
Proof.
  intros V Hy Hs Hv s e.
  pose proof (reference_window_spec today V Hy) as Hw.
  pose proof (spec_window_ordered today V Hy) as Hse.
  rewrite (surjective_pairing (Spec.reference_window today)) in Hw.
  fold s e in Hw, Hse.
  apply Sorted_StronglySorted_rows in Hs.
  assert (Hdays : forall t0 t1,
             last_nav_on_or_before S s = Some t0 ->
             last_nav_on_or_before S e = Some t1 ->
             0 <= days_between (obs_date t1) (obs_date t0) /\
             (days_between (obs_date t1) (obs_date t0) <= 0 <->
              obs_date t0 = obs_date t1)).
  { intros t0 t1 H0 H1.
    assert (Hle : leb s e = true)
      by (apply leb_spec; left; now apply ltb_lt).
    destruct (lookup_mono S s e t0 Hs Hle H0) as (t1' & H1' & Hd).
    rewrite H1 in H1'. injection H1' as <-.
    pose proof (lookup_valid S s t0 Hv H0) as V0.
    pose proof (lookup_valid S e t1 Hv H1) as V1.
    pose proof (toordinal_le _ _ V0 V1 Hd) as Hord.
    unfold days_between. split; [lia |]. split.
    - intros Hz. apply leb_spec in Hd. destruct Hd as [Hd | Hd]; [| exact Hd].
      pose proof (toordinal_lt _ _ V0 V1 Hd). lia.
    - intros ->. lia. }
  split; [intros t0 t1 H0 H1; now apply Hdays |].
  rewrite (monthly_rolling_return_window _ _ _ _ Hw).
  destruct (last_nav_on_or_before S s) as [t0 |] eqn:E0.
  2: { split; auto. }
  destruct (last_nav_on_or_before S e) as [t1 |] eqn:E1.
  2: { split; auto. }
  destruct (Hdays t0 t1 eq_refl eq_refl) as [Hnn Hiff].
  destruct (Z.leb_spec (days_between (obs_date t1) (obs_date t0)) 0) as [L | L];
    simpl.
  - split; [| reflexivity]. intros _. right. right.
    exists t0, t1. repeat split; auto. left. now apply Hiff.
  - destruct (obs_nav t0 =? 0)%float eqn:Ez.
    + split; [| reflexivity]. intros _. right. right.
      exists t0, t1. repeat split; auto.
    + split; [discriminate |].
      intros [H | [H | (a & b & [= <-] & [= <-] & [H | H])]];
        try discriminate; [apply Hiff in H; lia | congruence].
Qed.

Lemma monthly_rolling_return_on_series_witness :
  0 <= days_between (mkdate 2024 2 29) (mkdate 2024 1 31).
Proof.
  refine (proj1 (monthly_rolling_return_on_series
                   (mkdate 2024 3 15) Samples.feb_2024_series
                   eq_refl eq_refl _ _)
            (mkobs (mkdate 2024 1 31) 100) (mkobs (mkdate 2024 2 29) 110)
            eq_refl eq_refl).
  - repeat constructor.
  - repeat constructor.
Defined.

Lemma toordinal_last_day y m :
  toordinal (last_day_of (y, m)) =
  toordinal (mkdate y m 1) - 1 + days_in_month y m.
Proof. unfold toordinal, last_day_of, ymd2ord. simpl. lia. Qed.

(** X5: the two reference dates are exactly one calendar month apart:
    the days between them are the length of the end date's month, so
    between 28 and 31. *)
Theorem reference_window_length today start_date end_date :
  valid today = true -> MINYEAR < year today ->
  reference_window today = ret (start_date, end_date) ->
  days_between end_date start_date
  = days_in_month (year end_date) (month end_date) /\
  28 <= days_between end_date start_date <= 31.
Proof.
  intros V Hy Hw.
  rewrite (reference_window_spec today V Hy) in Hw.
  unfold Spec.reference_window in Hw. cbv zeta in Hw.
  injection Hw as <- <-.
  apply valid_spec in V. destruct V as (Hy' & Hm & _).
  assert (Hy1 : 1 < year today) by exact Hy.
  destruct (prev_month_range (year today) (month today)) as [Hye Hme];
    [lia | lia | lia |].
  set (em := prev_month (year today) (month today)) in *.
  assert (Hlater : 1 < fst em \/ 1 < snd em)
    by (apply prev_month_later; lia).
  assert (E : days_between (last_day_of em)
                (last_day_of (prev_month (fst em) (snd em)))
              = days_in_month (fst em) (snd em)).
  { unfold days_between.
    rewrite <- (toordinal_first_of_month (fst em) (snd em)) by lia.
    rewrite (surjective_pairing em) at 1.
    rewrite toordinal_last_day. lia. }
  simpl. rewrite E. split; [reflexivity |].
  now apply days_in_month_bounds.
Qed.

Lemma reference_window_length_witness :
  days_between (mkdate 2024 2 29) (mkdate 2024 1 31) = 29.
Proof.
  exact (proj1 (reference_window_length
                  (mkdate 2024 3 15) (mkdate 2024 1 31) (mkdate 2024 2 29)
                  eq_refl eq_refl eq_refl)).
Defined.

(** X6: the result depends on the current date through its year and
    month only: on any two days of the same month the function returns the
    same result for the same frame. *)
Theorem monthly_rolling_return_same_month a b df :
  valid a = true -> valid b = true -> MINYEAR < year a ->
  year a = year b -> month a = month b ->
  monthly_rolling_return a df = monthly_rolling_return b df.
Proof.
  intros Va Vb Hy Ey Em.
  assert (Hyb : MINYEAR < year b) by (now rewrite <- Ey).
  pose proof (reference_window_spec a Va Hy) as Ha.
  pose proof (reference_window_spec b Vb Hyb) as Hb.
  rewrite (WindowFacts.reference_window_same_month a b Ey Em) in Ha.
  destruct (Spec.reference_window b) as [s e].
  now rewrite (monthly_rolling_return_window _ _ _ _ Ha),
              (monthly_rolling_return_window _ _ _ _ Hb).
Qed.

Lemma monthly_rolling_return_same_month_witness :
  monthly_rolling_return (mkdate 2024 3 1) Samples.feb_2024_series =
  monthly_rolling_return (mkdate 2024 3 31) Samples.feb_2024_series.
Proof.
  apply monthly_rolling_return_same_month; reflexivity.
Defined.


End NavExtras.

(** * Further properties of the run *)

Module RunnerExtras.
Import Calendar Frame Nav Runner Report RunnerFacts.

Lemma total_tasks_pairs c : total_tasks c = (2 * List.length (pairs c))%nat.
Proof.
  unfold total_tasks. induction c as [| [amc cat_dict] c IH];
    [reflexivity |].
  rewrite pairs_cons, length_app, length_map. simpl map. simpl list_sum.
  simpl snd. rewrite IH. lia.
Qed.

Lemma log_upto_next total tc lg new :
  log_upto total tc lg ->
  Forall (fun l => progress l = None \/ progress l = Some (S tc, total)) new ->
  Exists (fun l => progress l = Some (S tc, total)) new ->
  log_upto total (S tc) (lg ++ new).
Proof.
  intros [Hall Hevery] Hnew Hex. split.
  - intros l n t Hin Hp. apply in_app_or in Hin. destruct Hin as [Hin | Hin].
    + destruct (Hall _ _ _ Hin Hp). split; [assumption | lia].
    + rewrite Forall_forall in Hnew. destruct (Hnew _ Hin) as [E | E];
        rewrite E in Hp; [discriminate |].
      injection Hp as <- <-. split; [reflexivity | lia].
  - intros n Hn. destruct (Nat.eq_dec n (S tc)) as [-> | Hne].
    + apply Exists_exists in Hex. destruct Hex as (l & Hin & Hp).
      exists l. split; [apply in_or_app; now right | exact Hp].
    + destruct (Hevery n) as (l & Hin & Hp); [lia |].
      exists l. split; [apply in_or_app; now left | exact Hp].
Qed.

Lemma log_upto_silent total tc lg l :
  log_upto total tc lg -> progress l = None -> log_upto total tc (lg ++ [l]).
Proof.
  intros [Hall Hevery] Hl. split.
  - intros l' n t Hin Hp. apply in_app_or in Hin.
    destruct Hin as [Hin | [<- | []]]; [now apply (Hall l') | congruence].
  - intros n Hn. destruct (Hevery n Hn) as (l' & Hin & Hp).
    exists l'. split; [apply in_or_app; now left | exact Hp].
Qed.

Section Progress.

Variable to_datetime : list string -> list (option Timestamp).
Variable to_numeric : string -> float.
Variable sort_values : DataFrame -> DataFrame.
Variable w : World.
Variable total : nat.

Local Abbreviation plan_step :=
  (Runner.plan_step to_datetime to_numeric sort_values w total).
Local Abbreviation category_step :=
  (Runner.category_step to_datetime to_numeric sort_values w total).
Local Abbreviation amc_step :=
  (Runner.amc_step to_datetime to_numeric sort_values w total).

Ltac new_lines :=
  first
    [ apply Exists_cons_hd; reflexivity
    | repeat (apply Forall_cons;
              [first [left; reflexivity | right; reflexivity] |]);
      apply Forall_nil ].

Lemma plan_step_log amc category plans row tc lg plan :
  log_upto total tc lg ->
  exists row' lg',
    plan_step amc category plans (row, tc, lg) plan = (row', S tc, lg') /\
    log_upto total (S tc) lg'.
Proof.
  intros H. unfold Runner.plan_step.
  destruct (plans_get plan plans) as [code |].
  - destruct (fetch_and_compute _ _ _ _ (S tc) code) as [e | [v |]];
      do 2 eexists; (split; [reflexivity |]);
      rewrite <- app_assoc; apply log_upto_next; auto; simpl; new_lines.
  - do 2 eexists. split; [reflexivity |].
    apply log_upto_next; auto; new_lines.
Qed.

Lemma category_step_ok amc st item :
  state_ok total st ->
  state_ok total (category_step amc st item) /\
  task_counter (category_step amc st item) = S (S (task_counter st)).
Proof.
  intros H. destruct item as [category plans].
  unfold Runner.category_step. cbn [fold_left].
  destruct (plan_step_log amc category plans
              [("AMC"%string, VStr amc)] (task_counter st) (logged st)
              "Direct"%string H) as (row1 & lg1 & E1 & H1).
  destruct (plan_step_log amc category plans row1 (S (task_counter st)) lg1
              "Regular"%string H1) as (row2 & lg2 & E2 & H2).
  unfold ReportRow, dict in *. rewrite E1, E2.
  split; [exact H2 | reflexivity].
Qed.

Lemma category_loop_ok amc cat_dict st :
  state_ok total st -> state_ok total (fold_left (category_step amc) cat_dict st).
Proof.
  revert st. induction cat_dict as [| item cat_dict IH]; intros st H;
    [exact H |].
  simpl. apply IH. now apply category_step_ok.
Qed.

Lemma amc_loop_ok c st :
  state_ok total st -> state_ok total (fold_left amc_step c st).
Proof.
  revert st. induction c as [| [amc cat_dict] c IH]; intros st H;
    [exact H |].
  simpl. apply IH. unfold Runner.amc_step. apply category_loop_ok.
  unfold state_ok. simpl. now apply log_upto_silent.
Qed.

End Progress.

(** X7: the progress counter of the run: [task_counter] ends at
    [total_tasks], every progress marker in the log is [[n/total_tasks]]
    with [1 <= n <= total_tasks], and every task number from 1 to
    [total_tasks] has a line. *)
Theorem run_progress to_datetime to_numeric sort_values w c :
  let st := run to_datetime to_numeric sort_values w c in
  task_counter st = total_tasks c /\
  (forall l n t, In l (logged st) -> progress l = Some (n, t) ->
                 t = total_tasks c /\ (1 <= n <= total_tasks c)%nat) /\
  (forall n, (1 <= n <= total_tasks c)%nat ->
             exists l, In l (logged st) /\
                       progress l = Some (n, total_tasks c)).
Proof.
  cbv zeta.
  assert (Erun : run to_datetime to_numeric sort_values w c =
                 fold_left
                   (Runner.amc_step to_datetime to_numeric sort_values w
                      (total_tasks c))
                   c (mkstate [] 0 [])) by reflexivity.
  rewrite Erun.
  pose proof (amc_loop_ok to_datetime to_numeric sort_values w
                (total_tasks c) c (mkstate [] 0 [])) as H.
  unfold state_ok in H.
  destruct (amc_loop to_datetime to_numeric sort_values w (total_tasks c)
              c (mkstate [] 0 [])) as [lg' E].
  rewrite E in *. cbn [task_counter logged] in *.
  rewrite <- total_tasks_pairs in H.
  split; [now rewrite total_tasks_pairs |].
  apply H. split; [intros l n t [] | intros n Hn; lia].
Qed.

Lemma dict_set_fresh {V} k (v : V) d :
  dict_mem k d = false -> dict_set k v d = d ++ [(k, v)].
Proof.
  unfold dict_mem. induction d as [| [k0 v0] d IH]; simpl; [reflexivity |].
  destruct (String.eqb k k0); [discriminate |].
  intros H. now rewrite IH.
Qed.

Lemma dict_append_nonempty {V} k (x : V) d :
  Forall (fun kv => snd kv <> []) d ->
  Forall (fun kv => snd kv <> []) (dict_append k x d).
Proof.
  induction 1 as [| [k0 l0] d H0 Hd IH]; simpl; [constructor |].
  destruct (String.eqb k k0); constructor; auto.
  simpl. destruct l0; discriminate.
Qed.

Lemma dict_append_last {V} k (x : V) d :
  dict_mem k d = false ->
  dict_append k x (d ++ [(k, [])]) = d ++ [(k, [x])].
Proof.
  unfold dict_mem. induction d as [| [k0 l0] d IH]; simpl.
  - now rewrite String.eqb_refl.
  - destruct (String.eqb k k0); [discriminate |].
    intros H. now rewrite IH.
Qed.

Lemma add_row_nonempty res item :
  Forall (fun kv => snd kv <> []) res ->
  Forall (fun kv => snd kv <> []) (add_row res item).
Proof.
  intros H. unfold add_row.
  destruct (dict_mem (fst item) res) eqn:E.
  - now apply dict_append_nonempty.
  - rewrite dict_set_fresh, dict_append_last by assumption.
    apply Forall_app. split; [exact H |].
    constructor; [discriminate | constructor].
Qed.

Lemma group_rows_nonempty rows :
  Forall (fun kv => snd kv <> []) (group_rows rows).
Proof.
  unfold group_rows.
  assert (H : Forall (fun kv : string * list ReportRow => snd kv <> []) [])
    by constructor.
  revert H. generalize (@nil (string * list ReportRow)).
  induction rows as [| item rows IH]; intros res H; simpl; [exact H |].
  apply IH. now apply add_row_nonempty.
Qed.

Lemma report_empty_iff f c : report_of f c = [] <-> pairs c = [].
Proof.
  rewrite report_of_pair_rows. split.
  - intros H. apply (f_equal (map fst)) in H.
    rewrite group_rows_keys, pair_rows_keys in H.
    destruct (pairs c) as [| p ps]; [reflexivity | discriminate].
  - intros ->. reflexivity.
Qed.

Lemma add_row_Forall (P : ReportRow -> Prop) res item :
  P (snd item) ->
  Forall (fun kv => Forall P (snd kv)) res ->
  Forall (fun kv => Forall P (snd kv)) (add_row res item).
Proof.
  intros Hitem H. unfold add_row.
  assert (Happ : forall d,
             Forall (fun kv : string * list ReportRow => Forall P (snd kv)) d ->
             Forall (fun kv => Forall P (snd kv))
                    (dict_append (fst item) (snd item) d)).
  { induction 1 as [| [k0 l0] d H0 Hd IH]; simpl; [constructor |].
    destruct (String.eqb (fst item) k0); constructor; auto.
    simpl. apply Forall_app. split; [exact H0 | now constructor]. }
  apply Happ. destruct (dict_mem (fst item) res) eqn:E; [exact H |].
  rewrite dict_set_fresh by assumption. apply Forall_app.
  split; [exact H | repeat constructor].
Qed.

Lemma group_rows_Forall (P : ReportRow -> Prop) rows :
  Forall (fun item => P (snd item)) rows ->
  Forall (fun kv => Forall P (snd kv)) (group_rows rows).
Proof.
  unfold group_rows.
  assert (H : Forall (fun kv : string * list ReportRow => Forall P (snd kv)) [])
    by constructor.
  revert H. generalize (@nil (string * list ReportRow)).
  induction rows as [| item rows IH]; intros res H Hrows; simpl;
    [exact H |].
  inversion Hrows; subst. apply IH; [| assumption].
  now apply add_row_Forall.
Qed.

Lemma pair_rows_Forall (P : ReportRow -> Prop) f n ps :
  (forall amc m1 c1 m2 c2, P (make_row amc (f m1 c1) (f m2 c2))) ->
  Forall (fun item => P (snd item)) (pair_rows f n ps).
Proof.
  intros H. revert n. induction ps as [| p ps IH]; intros n;
    [constructor |].
  rewrite pair_rows_cons. constructor; [apply H | apply IH].
Qed.

Lemma run_counter to_datetime to_numeric sort_values w c :
  task_counter (run to_datetime to_numeric sort_values w c) = total_tasks c.
Proof.
  unfold run.
  destruct (amc_loop to_datetime to_numeric sort_values w (total_tasks c)
              c (mkstate [] 0 [])) as [lg' E].
  unfold total_tasks in E at 1. rewrite E. simpl.
  now rewrite total_tasks_pairs.
Qed.

(** X8: the report is empty exactly when the catalogue holds no
    (AMC, category) pair, and no category of the report has an empty list
    of rows. *)
Theorem build_results_nonempty to_datetime to_numeric sort_values w c :
  (build_results to_datetime to_numeric sort_values w c = [] <->
   pairs c = []) /\
  Forall (fun kv => snd kv <> [])
         (build_results to_datetime to_numeric sort_values w c).
Proof.
  rewrite build_results_report. split.
  - apply report_empty_iff.
  - rewrite report_of_pair_rows. apply group_rows_nonempty.
Qed.

End RunnerExtras.

(** * Properties of the export *)

Module ExcelFacts.
Import Calendar Nav Runner Report Excel.
Import CalendarFacts NavFacts RunnerFacts.

Section Formatting.

Variable str_of_float : float -> string.
Variable format_2f : float -> string.
Variable strftime_b_Y : date -> string.

Local Abbreviation render := (Excel.render str_of_float format_2f).
Local Abbreviation write_cell := (Excel.write_cell str_of_float format_2f).
Local Abbreviation write_row := (Excel.write_row str_of_float format_2f).
Local Abbreviation export_sheet :=
  (Excel.export_sheet str_of_float format_2f).
Local Abbreviation row_ops := (Excel.row_ops str_of_float).
Local Abbreviation rows_ops := (Excel.rows_ops str_of_float).
Local Abbreviation row_widths :=
  (Excel.row_widths str_of_float format_2f).
Local Abbreviation widen := (Excel.widen str_of_float format_2f).
Local Abbreviation display_text :=
  (Excel.display_text str_of_float format_2f).

Lemma render_result col raw :
  String.prefix "Rolling Return" col = true ->
  render col raw =
  if is_text raw then raise ValueError
  else ret (fst (result_cell raw), snd (result_cell raw),
            result_text format_2f raw).
Proof.
  intros H. unfold Excel.render. rewrite H.
  destruct raw as [[s | f |] |]; simpl; try reflexivity.
  unfold is_finite. destruct (is_nan f || is_infinity f); reflexivity.
Qed.

Lemma render_other col raw :
  String.prefix "Rolling Return" col = false ->
  render col raw =
  ret (CellString (amc_text str_of_float raw), normal_fmt,
       amc_text str_of_float raw).
Proof.
  intros H. unfold Excel.render. rewrite H.
  destruct raw as [[s | f |] |]; reflexivity.
Qed.

Lemma write_row_eq ops w r row :
  write_row (ops, w, r) row =
  if row_has_text row then raise ValueError
  else ret (ops ++ row_ops r row, row_widths w row, S r).
Proof.
  unfold Excel.write_row, expected_cols, row_has_text, Excel.row_ops,
    Excel.row_widths, expected_cols.
  cbn [foldM fold_left]. unfold Excel.write_cell at 1.
  rewrite (render_other "AMC") by reflexivity. cbn [bind ret].
  unfold Excel.write_cell at 1.
  rewrite (render_result "Rolling Return - Direct") by reflexivity.
  change (column "Direct") with "Rolling Return - Direct"%string.
  change (column "Regular") with "Rolling Return - Regular"%string.
  destruct (is_text (dict_get "Rolling Return - Direct" row)); cbn [bind ret];
    [reflexivity |].
  unfold Excel.write_cell at 1.
  rewrite (render_result "Rolling Return - Regular") by reflexivity.
  destruct (is_text (dict_get "Rolling Return - Regular" row));
    cbn [bind ret orb]; [reflexivity |].
  rewrite <- !app_assoc. reflexivity.
Qed.

Lemma write_rows_eq rows ops w r :
  foldM write_row rows (ops, w, r) =
  if existsb row_has_text rows then raise ValueError
  else ret (ops ++ rows_ops r rows, fold_left row_widths rows w,
            (r + List.length rows)%nat).
Proof.
  revert ops w r. induction rows as [| row rows IH]; intros ops w r.
  - simpl. now rewrite app_nil_r, Nat.add_0_r.
  - cbn [foldM existsb]. rewrite write_row_eq.
    destruct (row_has_text row); cbn [bind ret orb]; [reflexivity |].
    rewrite IH. destruct (existsb row_has_text rows); [reflexivity |].
    cbn [Excel.rows_ops fold_left List.length].
    rewrite <- app_assoc, Nat.add_succ_r. reflexivity.
Qed.

Local Abbreviation sheet_layout :=
  (Excel.sheet_layout str_of_float format_2f).
Local Abbreviation export_to_excel :=
  (Excel.export_to_excel str_of_float format_2f strftime_b_Y).
Local Abbreviation sheet_step := (Excel.sheet_step str_of_float format_2f).

(** What a sheet receives: nothing for an empty frame, [ValueError] for
    a string under a result column, otherwise the calls of
    [sheet_layout]. *)
Lemma export_sheet_layout category rows :
  export_sheet category rows =
  if df_empty rows then ret (None, [LogNoRows category])
  else if existsb row_has_text rows then raise ValueError
  else ret (Some (sheet_layout rows),
            [LogWroteSheet category (List.length rows)]).
Proof.
  unfold Excel.export_sheet. destruct (df_empty rows); [reflexivity |].
  rewrite write_rows_eq.
  destruct (existsb row_has_text rows); [reflexivity |].
  cbn [bind ret]. unfold Excel.sheet_layout, header_widths.
  rewrite <- !app_assoc.
  replace (List.length rows + 1 + 1)%nat with (List.length rows + 2)%nat
    by lia.
  reflexivity.
Qed.

Local Abbreviation sheet_of := (Excel.sheet_of str_of_float format_2f).
Local Abbreviation report_file := (Excel.report_file strftime_b_Y).

Lemma sheets_eq results sheets lg :
  foldM sheet_step results (sheets, lg) =
  if existsb sheet_fails results then raise ValueError
  else ret (sheets ++ map sheet_of (filter has_frame results),
            lg ++ map sheet_line results).
Proof.
  revert sheets lg. induction results as [| item results IH];
    intros sheets lg.
  - simpl. now rewrite !app_nil_r.
  - cbn [foldM existsb filter map]. unfold Excel.sheet_step at 1.
    rewrite export_sheet_layout.
    unfold sheet_fails at 1, has_frame at 1, sheet_line at 1.
    destruct (df_empty (snd item)); cbn [negb andb orb bind ret fst snd].
    + rewrite IH. destruct (existsb sheet_fails results); [reflexivity |].
      now rewrite <- app_assoc.
    + destruct (existsb row_has_text (snd item)); cbn [bind ret fst snd orb];
        [reflexivity |].
      rewrite IH. destruct (existsb sheet_fails results); [reflexivity |].
      now rewrite <- !app_assoc.
Qed.

Lemma export_to_excel_eq today results report_date :
  end_of_previous_month today = ret report_date ->
  export_to_excel today results =
  if existsb sheet_fails results then raise ValueError
  else ret (report_file report_date,
            map sheet_of (filter has_frame results),
            map sheet_line results ++ [LogFileWritten (report_file report_date)]).
Proof.
  intros H. unfold Excel.export_to_excel. rewrite H. cbn [bind ret].
  rewrite sheets_eq.
  destruct (existsb sheet_fails results); reflexivity.
Qed.

(** X9: the workbook.  On a date whose month has a predecessor the file
    is named after the last day of the month before; the export raises
    [ValueError] exactly when a category with a frame holds a string
    under a result column; otherwise there is one sheet per category that
    has a frame, in the order of the report, a category without frame
    is skipped with a log line, and each sheet gets the padding, the
    headers, one write per cell at row [i + 2] (AMC as text, a finite
    result as a number with the percent format, anything else blank), the
    conditional formats and the widths. *)
Theorem export_to_excel_workbook today results :
  valid today = true -> MINYEAR < year today \/ 1 < month today ->
  export_to_excel today results =
  if existsb sheet_fails results then raise ValueError
  else
    let file :=
      report_file (last_day_of (prev_month (year today) (month today))) in
    ret (file,
         map sheet_of (filter has_frame results),
         map sheet_line results ++ [LogFileWritten file]).
Proof.
  intros V H. apply export_to_excel_eq.
  now apply end_of_previous_month_eq.
Qed.

Lemma result_cell_number raw f :
  fst (result_cell raw) = CellNumber f ->
  raw = Some (VFloat f) /\ is_finite f = true /\
  snd (result_cell raw) = percent_fmt.
Proof.
  destruct raw as [[s | g |] |]; simpl; try discriminate.
  destruct (is_finite g) eqn:E; simpl; [| discriminate].
  intros [= ->]. auto.
Qed.

Lemma set_widths_no_write idx cols w r c v fmt :
  ~ In (Write r c v fmt) (set_widths idx cols w).
Proof.
  revert idx. induction cols as [| col cols IH]; intros idx; simpl;
    [tauto |].
  intros [H | H]; [discriminate | now apply (IH (S idx))].
Qed.

Lemma rows_ops_number r0 rows r c f fmt :
  In (Write r c (CellNumber f) fmt) (rows_ops r0 rows) ->
  exists i row plan,
    nth_error rows i = Some row /\ r = (r0 + i)%nat /\
    In plan ["Direct"%string; "Regular"%string] /\
    c = plan_col plan /\
    dict_get (column plan) row = Some (VFloat f) /\
    is_finite f = true /\ fmt = percent_fmt.
Proof.
  revert r0. induction rows as [| row rows IH]; intros r0; simpl;
    [tauto |].
  intros [H | [H | [H | H]]].
  - discriminate.
  - injection H as <- <- Hv <-.
    destruct (result_cell_number _ _ Hv) as (Hraw & Hfin & Hfmt).
    exists 0%nat, row, "Direct"%string. rewrite Nat.add_0_r.
    repeat split; simpl; auto.
  - injection H as <- <- Hv <-.
    destruct (result_cell_number _ _ Hv) as (Hraw & Hfin & Hfmt).
    exists 0%nat, row, "Regular"%string. rewrite Nat.add_0_r.
    repeat split; simpl; auto.
  - destruct (IH _ H) as (i & row' & plan & Hn & -> & Hrest).
    exists (S i), row', plan. split; [exact Hn |].
    split; [lia | exact Hrest].
Qed.

Lemma rows_ops_has r0 rows i row plan :
  nth_error rows i = Some row ->
  In plan ["Direct"%string; "Regular"%string] ->
  In (Write (r0 + i) (plan_col plan)
        (fst (result_cell (dict_get (column plan) row)))
        (snd (result_cell (dict_get (column plan) row))))
     (rows_ops r0 rows).
Proof.
  revert r0 i. induction rows as [| row0 rows IH]; intros r0 i Hn Hp.
  - destruct i; discriminate.
  - destruct i as [| i]; simpl in Hn.
    + injection Hn as ->. rewrite Nat.add_0_r. simpl.
      destruct Hp as [<- | [<- | []]]; simpl; auto.
    + simpl. do 3 right.
      replace (r0 + S i)%nat with (S r0 + i)%nat by lia.
      now apply IH.
Qed.

Lemma sheet_layout_number rows r c f fmt :
  In (Write r c (CellNumber f) fmt) (sheet_layout rows) ->
  In (Write r c (CellNumber f) fmt) (rows_ops 2 rows).
Proof.
  unfold Excel.sheet_layout. rewrite !in_app_iff. simpl.
  intros [H | [H | [H | [H | H]]]]; auto.
  - destruct H as [H | [H | [H | []]]]; discriminate.
  - destruct H as [H | [H | [H | []]]]; discriminate.
  - destruct H as [H | [H | []]]; discriminate.
  - destruct H as [H | [H | [H | []]]]; discriminate.
Qed.

Lemma sheet_layout_rows_ops rows op :
  In op (rows_ops 2 rows) -> In op (sheet_layout rows).
Proof.
  intros H. unfold Excel.sheet_layout. rewrite !in_app_iff. auto.
Qed.

Lemma export_to_excel_inv today results file sheets lg :
  export_to_excel today results = ret (file, sheets, lg) ->
  existsb sheet_fails results = false /\
  sheets = map sheet_of (filter has_frame results).
Proof.
  intros H.
  destruct (end_of_previous_month today) as [e | d] eqn:Ed.
  - unfold Excel.export_to_excel in H. rewrite Ed in H. discriminate.
  - rewrite (export_to_excel_eq _ _ _ Ed) in H.
    destruct (existsb sheet_fails results); [discriminate |].
    injection H as _ <- _. auto.
Qed.

(** X10: in a written workbook every number is finite, has the percent
    format, and is the value the report holds for that row and plan, at
    sheet row [i + 2] and the column of the plan; and every result cell of
    every category with a frame is written there: the number when the
    value is a finite float, a blank when it is missing, [None], NaN or
    infinite. *)
Theorem written_results today results file sheets lg :
  export_to_excel today results = ret (file, sheets, lg) ->
  (forall name ops r c f fmt,
     In (name, ops) sheets ->
     In (Write r c (CellNumber f) fmt) ops ->
     is_finite f = true /\ fmt = percent_fmt /\
     exists rows i row plan,
       In (name, rows) results /\ nth_error rows i = Some row /\
       r = (i + 2)%nat /\
       In plan ["Direct"%string; "Regular"%string] /\
       c = plan_col plan /\
       dict_get (column plan) row = Some (VFloat f)) /\
  (forall name rows i row plan,
     In (name, rows) results -> has_frame (name, rows) = true ->
     nth_error rows i = Some row ->
     In plan ["Direct"%string; "Regular"%string] ->
     exists ops,
       In (name, ops) sheets /\
       In (Write (i + 2) (plan_col plan)
             (fst (result_cell (dict_get (column plan) row)))
             (snd (result_cell (dict_get (column plan) row))))
          ops).
Proof.
  intros H. destruct (export_to_excel_inv _ _ _ _ _ H) as [_ ->]. split.
  - intros name ops r c f fmt Hin Hw.
    apply in_map_iff in Hin. destruct Hin as ([name' rows] & E & Hitem).
    injection E as -> <-. apply filter_In in Hitem.
    destruct Hitem as [Hitem _].
    apply sheet_layout_number in Hw.
    destruct (rows_ops_number _ _ _ _ _ _ Hw)
      as (i & row & plan & Hn & -> & Hp & -> & Hv & Hfin & ->).
    repeat split; auto.
    exists rows, i, row, plan. repeat split; auto. lia.
  - intros name rows i row plan Hitem Hframe Hn Hp.
    exists (sheet_layout rows). split.
    + apply in_map_iff. exists (name, rows). split; [reflexivity |].
      apply filter_In. auto.
    + apply sheet_layout_rows_ops.
      replace (i + 2)%nat with (2 + i)%nat by lia.
      now apply rows_ops_has.
Qed.

Lemma width_of_widen row w col c :
  width_of c (widen row w col) =
  if String.eqb c col
  then Nat.max (width_of col w) (String.length (display_text col row))
  else width_of c w.
Proof.
  unfold Excel.widen, width_of at 1. rewrite dict_get_set.
  destruct (String.eqb c col); reflexivity.
Qed.

Lemma dict_mem_widen row w col c :
  dict_mem c w = true -> dict_mem c (widen row w col) = true.
Proof.
  unfold Excel.widen, dict_mem. rewrite dict_get_set.
  destruct (String.eqb c col); auto.
Qed.

Lemma widen_cols row cols w c :
  (width_of c w <= width_of c (fold_left (widen row) cols w))%nat /\
  (dict_mem c w = true ->
   dict_mem c (fold_left (widen row) cols w) = true) /\
  (In c cols ->
   (String.length (display_text c row)
    <= width_of c (fold_left (widen row) cols w))%nat).
Proof.
  revert w. induction cols as [| col cols IH]; intros w; simpl.
  - repeat split; auto. tauto.
  - destruct (IH (widen row w col)) as (Hmono & Hmem & Hcov).
    pose proof (width_of_widen row w col c) as Hw.
    destruct (String.eqb_spec c col) as [-> | Hne].
    + repeat split.
      * lia.
      * intros H. apply Hmem. now apply dict_mem_widen.
      * intros _. lia.
    + repeat split.
      * lia.
      * intros H. apply Hmem. now apply dict_mem_widen.
      * intros [-> | Hin]; [contradiction | auto].
Qed.

Lemma row_widths_rows rows w c :
  (width_of c w <= width_of c (fold_left row_widths rows w))%nat /\
  (dict_mem c w = true ->
   dict_mem c (fold_left row_widths rows w) = true) /\
  (In c expected_cols ->
   forall row, In row rows ->
     (String.length (display_text c row)
      <= width_of c (fold_left row_widths rows w))%nat).
Proof.
  revert w. induction rows as [| row0 rows IH]; intros w; simpl.
  - repeat split; auto. intros _ row [].
  - destruct (IH (row_widths w row0)) as (Hmono & Hmem & Hcov).
    destruct (widen_cols row0 expected_cols w c) as (Hm0 & Hmem0 & Hcov0).
    fold (row_widths w row0) in Hm0, Hmem0, Hcov0.
    repeat split.
    + lia.
    + auto.
    + intros Hc row [<- | Hin]; [| now apply Hcov].
      specialize (Hcov0 Hc). lia.
Qed.

Lemma set_widths_has idx cols w i col :
  nth_error cols i = Some col ->
  dict_mem col w = true ->
  exists width,
    In (SetColumn (idx + i) (idx + i) width) (set_widths idx cols w) /\
    (8 <= width)%nat /\ (width_of col w + 2 <= width)%nat.
Proof.
  revert idx i. induction cols as [| col0 cols IH]; intros idx i Hn Hmem.
  - destruct i; discriminate.
  - destruct i as [| i]; simpl in Hn.
    + injection Hn as ->. rewrite Nat.add_0_r. simpl.
      unfold dict_mem in Hmem. unfold width_of.
      destruct (dict_get col w) as [n |]; [| discriminate].
      eexists. split; [left; reflexivity |].
      destruct (Nat.ltb_spec (n + 2) 8); lia.
    + destruct (IH (S idx) i Hn Hmem) as (width & Hin & Hw).
      exists width. replace (idx + S i)%nat with (S idx + i)%nat by lia.
      split; [right; exact Hin | exact Hw].
Qed.

Lemma header_widths_of col :
  In col expected_cols ->
  dict_mem col header_widths = true /\
  width_of col header_widths = String.length col.
Proof.
  intros [<- | [<- | [<- | []]]]; split; reflexivity.
Qed.

(** X11: the widths of a written sheet: each of the three columns is
    set to a width of at least 8, at least the header's length plus 2, and
    at least the length plus 2 of every text displayed in the column. *)
Theorem column_widths today results file sheets lg name rows :
  export_to_excel today results = ret (file, sheets, lg) ->
  In (name, rows) results -> has_frame (name, rows) = true ->
  exists ops,
    In (name, ops) sheets /\
    forall i col, nth_error expected_cols i = Some col ->
      exists width,
        In (SetColumn (S i) (S i) width) ops /\
        (8 <= width)%nat /\
        (String.length col + 2 <= width)%nat /\
        forall row, In row rows ->
          (String.length (display_text col row) + 2 <= width)%nat.
Proof.
  intros H Hitem Hframe.
  destruct (export_to_excel_inv _ _ _ _ _ H) as [_ ->].
  exists (sheet_layout rows). split.
  - apply in_map_iff. exists (name, rows). split; [reflexivity |].
    apply filter_In. auto.
  - intros i col Hn.
    assert (Hcol : In col expected_cols) by (eapply nth_error_In; eauto).
    destruct (header_widths_of col Hcol) as [Hmem Hlen].
    destruct (row_widths_rows rows header_widths col)
      as (Hmono & Hmem' & Hcov).
    destruct (set_widths_has 1 expected_cols
                (fold_left row_widths rows header_widths) i col Hn
                (Hmem' Hmem)) as (width & Hin & H8 & Hw).
    exists width. split.
    + unfold Excel.sheet_layout. rewrite !in_app_iff. do 4 right. exact Hin.
    + split; [exact H8 |]. split; [lia |].
      intros row Hrow. specialize (Hcov Hcol row Hrow). lia.
Qed.

(** A row as [build_results] makes it: not empty, and no string under
    a result column. *)
Lemma make_row_clean amc direct regular :
  direct = VNone \/ (exists f, direct = VFloat f) ->
  regular = VNone \/ (exists f, regular = VFloat f) ->
  make_row amc direct regular <> [] /\
  row_has_text (make_row amc direct regular) = false.
Proof.
  intros [-> | [f ->]] [-> | [g ->]]; split; solve [discriminate | reflexivity].
Qed.

Lemma plan_result_number to_datetime to_numeric sort_values w n code :
  let v := plan_result to_datetime to_numeric sort_values w n code in
  v = VNone \/ exists f, v = VFloat f.
Proof.
  unfold plan_result. destruct code as [code |]; [| now left].
  destruct (fetch_and_compute _ _ _ _ _ _) as [e | [rr |]]; simpl; eauto.
Qed.

Lemma clean_sheets results :
  Forall (fun kv : string * list ReportRow =>
            snd kv <> [] /\
            Forall (fun row => row <> [] /\ row_has_text row = false)
                   (snd kv)) results ->
  existsb sheet_fails results = false /\
  filter has_frame results = results /\
  map sheet_line results =
  map (fun item => LogWroteSheet (fst item) (List.length (snd item))) results.
Proof.
  induction 1 as [| [name rows] results [Hne Hrows] _ (IH1 & IH2 & IH3)];
    [repeat split |].
  cbn [snd] in Hne, Hrows.
  assert (Hempty : df_empty rows = false).
  { destruct rows as [| row rows]; [contradiction |].
    inversion Hrows as [| ? ? [Hrow _] _]; subst.
    destruct row; [contradiction | reflexivity]. }
  assert (Htext : existsb row_has_text rows = false).
  { clear Hne Hempty. induction Hrows as [| row rows' [_ Hrow] _ IH];
      [reflexivity |].
    simpl. now rewrite Hrow, IH. }
  cbn [existsb filter map]. unfold sheet_fails at 1, has_frame at 1,
    sheet_line at 1. cbn [fst snd]. rewrite Hempty, Htext. cbn [negb andb orb].
  rewrite IH1, IH2, IH3. repeat split.
Qed.

Lemma build_results_clean to_datetime to_numeric sort_values w c :
  Forall (fun kv : string * list ReportRow =>
            snd kv <> [] /\
            Forall (fun row => row <> [] /\ row_has_text row = false)
                   (snd kv))
         (build_results to_datetime to_numeric sort_values w c).
Proof.
  rewrite build_results_report, report_of_pair_rows.
  apply Forall_forall. intros kv Hin. split.
  - pose proof (RunnerExtras.group_rows_nonempty
                  (pair_rows (plan_result to_datetime to_numeric sort_values w)
                             0 (pairs c))) as H.
    rewrite Forall_forall in H. now apply H.
  - assert (H : Forall
                   (fun kv : string * list ReportRow =>
                      Forall (fun row => row <> [] /\ row_has_text row = false)
                             (snd kv))
                   (group_rows
                      (pair_rows
                         (plan_result to_datetime to_numeric sort_values w)
                         0 (pairs c)))).
    { apply (RunnerExtras.group_rows_Forall
               (fun row => row <> [] /\ row_has_text row = false)).
      apply (RunnerExtras.pair_rows_Forall
               (fun row => row <> [] /\ row_has_text row = false)).
      intros amc m1 c1 m2 c2.
      apply make_row_clean; apply plan_result_number. }
    rewrite Forall_forall in H. now apply H.
Qed.

(** X12: the report of [build_results] is always exported in full: on a
    date whose month has a predecessor the export meets no value it cannot
    write and skips no category; it makes one sheet per category of the
    report, in the order of the report, with one log line per sheet that
    counts its rows. *)
Theorem export_build_results to_datetime to_numeric sort_values w c today :
  valid today = true -> MINYEAR < year today \/ 1 < month today ->
  let results := build_results to_datetime to_numeric sort_values w c in
  let file :=
    report_file (last_day_of (prev_month (year today) (month today))) in
  export_to_excel today results =
  ret (file,
       map sheet_of results,
       map (fun item => LogWroteSheet (fst item) (List.length (snd item)))
           results
       ++ [LogFileWritten file]).
Proof.
  intros V H results file.
  rewrite (export_to_excel_eq today results _
             (end_of_previous_month_eq today V H)).
  destruct (clean_sheets results
              (build_results_clean to_datetime to_numeric sort_values w c))
    as (-> & -> & ->).
  reflexivity.
Qed.

End Formatting.

(** The theorems above on [Samples.mixed_report], exported on 15 March
    2024, and on the report of the run [Samples.all_served]. *)

Lemma export_to_excel_workbook_witness :
  Samples.demo_export (mkdate 2024 3 15) Samples.mixed_report =
  ret ("Rolling_Returns_Feb-2024.xlsx"%string,
       map (sheet_of Demo.str_of_float Demo.format_2f)
           (filter has_frame Samples.mixed_report),
       [LogWroteSheet "Equity" 2; LogNoRows "Debt";
        LogFileWritten "Rolling_Returns_Feb-2024.xlsx"]).
Proof.
  exact (export_to_excel_workbook
           Demo.str_of_float Demo.format_2f Demo.strftime_b_Y
           (mkdate 2024 3 15) Samples.mixed_report
           eq_refl (or_introl eq_refl)).
Defined.

Lemma written_results_witness :
  is_finite 0.125 = true /\
  exists rows i row plan,
    In ("Equity"%string, rows) Samples.mixed_report /\
    nth_error rows i = Some row /\
    2%nat = (i + 2)%nat /\
    In plan ["Direct"%string; "Regular"%string] /\
    2%nat = plan_col plan /\
    dict_get (column plan) row = Some (VFloat 0.125).
Proof.
  destruct (written_results
              Demo.str_of_float Demo.format_2f Demo.strftime_b_Y
              (mkdate 2024 3 15) Samples.mixed_report
              "Rolling_Returns_Feb-2024.xlsx"
              (map (sheet_of Demo.str_of_float Demo.format_2f)
                   (filter has_frame Samples.mixed_report))
              [LogWroteSheet "Equity" 2; LogNoRows "Debt";
               LogFileWritten "Rolling_Returns_Feb-2024.xlsx"]
              eq_refl) as [H _].
  destruct (H "Equity"%string
              (sheet_layout Demo.str_of_float Demo.format_2f
                 [make_row "AMC A" (VFloat 0.125) VNone;
                  make_row "A long AMC name" (VFloat infinity)
                           (VFloat (-0.5))])
              2%nat 2%nat 0.125%float percent_fmt)
    as (Hfin & _ & Hrow).
  - left. reflexivity.
  - vm_compute. do 7 right. left. reflexivity.
  - split; [exact Hfin | exact Hrow].
Defined.

Lemma column_widths_witness :
  exists ops,
    In ("Equity"%string, ops)
       (map (sheet_of Demo.str_of_float Demo.format_2f)
            (filter has_frame Samples.mixed_report)) /\
    forall i col, nth_error expected_cols i = Some col ->
      exists width,
        In (SetColumn (S i) (S i) width) ops /\
        (8 <= width)%nat /\
        (String.length col + 2 <= width)%nat /\
        forall row,
          In row [make_row "AMC A" (VFloat 0.125) VNone;
                  make_row "A long AMC name" (VFloat infinity)
                           (VFloat (-0.5))] ->
          (String.length
             (display_text Demo.str_of_float Demo.format_2f col row) + 2
           <= width)%nat.
Proof.
  apply (column_widths
           Demo.str_of_float Demo.format_2f Demo.strftime_b_Y
           (mkdate 2024 3 15) Samples.mixed_report
           "Rolling_Returns_Feb-2024.xlsx"
           (map (sheet_of Demo.str_of_float Demo.format_2f)
                (filter has_frame Samples.mixed_report))
           [LogWroteSheet "Equity" 2; LogNoRows "Debt";
            LogFileWritten "Rolling_Returns_Feb-2024.xlsx"]).
  - reflexivity.
  - left. reflexivity.
  - reflexivity.
Defined.

Lemma export_build_results_witness :
  Samples.demo_export (mkdate 2024 3 15)
    (Samples.demo_build_results Samples.all_served Samples.two_amcs) =
  ret ("Rolling_Returns_Feb-2024.xlsx"%string,
       map (sheet_of Demo.str_of_float Demo.format_2f)
           (Samples.demo_build_results Samples.all_served Samples.two_amcs),
       [LogWroteSheet "Equity" 2;
        LogFileWritten "Rolling_Returns_Feb-2024.xlsx"]).
Proof.
  exact (export_build_results
           Demo.str_of_float Demo.format_2f Demo.strftime_b_Y
           Demo.to_datetime Demo.to_numeric Demo.sort_values
           Samples.all_served Samples.two_amcs (mkdate 2024 3 15)
           eq_refl (or_introl eq_refl)).
Defined.

Section RunAll.

Variable to_datetime : list string -> list (option Frame.Timestamp).
Variable to_numeric : string -> float.
Variable sort_values : Frame.DataFrame -> Frame.DataFrame.
Variable str_of_float : float -> string.
Variable format_2f : float -> string.
Variable strftime_b_Y : date -> string.

(** X13: how [run_all] ends.  With an empty catalogue, or one whose AMCs
    have no category, it stops with "No results produced"; otherwise, if
    the date read after the last task is a valid date whose month has a
    predecessor, no value of the report sends it to the fatal branch: it
    exports the file named after the month before, with one sheet per
    category of the report. *)
Theorem run_all_outcome w c :
  let d := today w (S (total_tasks c)) in
  valid d = true -> MINYEAR < year d \/ 1 < month d ->
  run_all to_datetime to_numeric sort_values
          str_of_float format_2f strftime_b_Y w c =
  match pairs c with
  | [] => NoResults
  | _ :: _ =>
      Success
        (report_file strftime_b_Y
                     (last_day_of (prev_month (year d) (month d))))
        (map (sheet_of str_of_float format_2f)
             (build_results to_datetime to_numeric sort_values w c))
  end.
Proof.
  intros d V H. unfold run_all.
  rewrite RunnerExtras.run_counter. fold d.
  change (results (run to_datetime to_numeric sort_values w c))
    with (build_results to_datetime to_numeric sort_values w c).
  pose proof (RunnerExtras.report_empty_iff
                (plan_result to_datetime to_numeric sort_values w) c) as He.
  rewrite <- build_results_report in He.
  destruct (build_results to_datetime to_numeric sort_values w c)
    as [| kv res] eqn:E.
  - rewrite (proj1 He eq_refl). reflexivity.
  - destruct (pairs c) as [| p ps];
      [now discriminate (proj2 He eq_refl) |].
    rewrite <- E.
    rewrite (export_to_excel_eq str_of_float format_2f strftime_b_Y d _ _
               (end_of_previous_month_eq d V H)).
    destruct (clean_sheets _
                (build_results_clean to_datetime to_numeric sort_values w c))
      as (-> & -> & _).
    reflexivity.
Qed.

End RunAll.

Lemma run_all_outcome_witness :
  Samples.demo_run_all Samples.all_served Samples.two_amcs =
  Success "Rolling_Returns_Feb-2024.xlsx"
    (map (sheet_of Demo.str_of_float Demo.format_2f)
         (Samples.demo_build_results Samples.all_served Samples.two_amcs)).
Proof.
  exact (run_all_outcome
           Demo.to_datetime Demo.to_numeric Demo.sort_values
           Demo.str_of_float Demo.format_2f Demo.strftime_b_Y
           Samples.all_served Samples.two_amcs
           eq_refl (or_introl eq_refl)).
Defined.

End ExcelFacts.
